(** * Reddit hot-comments collector: a shallow embedding of [main.py]

    The development follows the single source file of the repository:

    - parsed JSON values as Python sees them after [r.json()], with the
      [dict.get], truthiness, iteration and [str + x] primitives the code
      relies on, each raising exactly where Python raises;
    - the outside world (the two HTTP endpoints, the clock, the disk) as an
      environment of oracles, and the observable effects of a run as a
      chronological trace of events; the disk may fail when the file is
      opened, when the header or a row is written, or when the file is
      closed, and a failure after the opening leaves a file behind;
    - [save_comments_csv] and [reddit_hot_comments_to_csv] as computations in
      a state-and-exception monad over that trace.

    What is left abstract: the textual rendering of URLs and of CSV cells
    (a request is recorded by its components, a row by its twelve cell
    values), and the wall-clock duration of [time.sleep] (a pause is recorded
    as an event carrying its length in milliseconds). *)

From Stdlib Require Import ZArith NArith Ascii String List Lia ZifyNat Bool.
From stdpp Require Import base tactics option list strings sorting.

Set Warnings "-register-all".

Open Scope string_scope.
Open Scope Z_scope.
Open Scope nat_scope.
Open Scope list_scope.

(** ** Parsed JSON values *)

(** The value produced by [Response.json()].  A JSON object is kept as the
    list of its items; [JFloat m e] stands for the decimal [m * 10^e]. *)
Inductive json : Type :=
  | JNull
  | JBool (b : bool)
  | JInt (n : Z)
  | JFloat (m e : Z)
  | JStr (s : string)
  | JArr (items : list json)
  | JObj (fields : list (string * json)).

(** ** Exceptions and results *)

Inductive pyexc : Type :=
  | AttributeError
  | TypeError
  | IndexError
  | JSONDecodeError (msg : string)
  | OSError (msg : string)
  | UnicodeEncodeError (msg : string)
  | ValueError (msg : string)
  | HTTPException (status_code : Z) (detail : string).

Inductive result (A : Type) : Type :=
  | Ok (a : A)
  | Raise (e : pyexc).
Arguments Ok {A} a.
Arguments Raise {A} e.

#[global] Instance result_ret : MRet result := fun A a => Ok a.
#[global] Instance result_bind : MBind result := fun A B f m =>
  match m with
  | Ok a => f a
  | Raise e => Raise e
  end.

Definition is_ok {A} (r : result A) : bool :=
  match r with Ok _ => true | Raise _ => false end.

(** ** Python primitives on parsed JSON *)

Module Py.

Fixpoint lookup_key (k : string) (kvs : list (string * json)) : option json :=
  match kvs with
  | [] => None
  | (k', v) :: rest => if String.eqb k k' then Some v else lookup_key k rest
  end.

(** [v.get(k, dflt)]: only a dict has a [get] attribute. *)
Definition get (v : json) (k : string) (dflt : json) : result json :=
  match v with
  | JObj kvs => Ok (default dflt (lookup_key k kvs))
  | _ => Raise AttributeError
  end.

(** [bool(v)], as used by [if not children]. *)
Definition truthy (v : json) : bool :=
  match v with
  | JNull => false
  | JBool b => b
  | JInt n => negb (n =? 0)%Z
  | JFloat m _ => negb (m =? 0)%Z
  | JStr s => negb (String.eqb s "")
  | JArr l => negb (Nat.eqb (length l) 0)
  | JObj kvs => negb (Nat.eqb (length kvs) 0)
  end.

Fixpoint chars (s : string) : list json :=
  match s with
  | EmptyString => []
  | String a rest => JStr (String a EmptyString) :: chars rest
  end.

(** [iter(v)]: a list yields its elements, a dict its keys, a str its
    characters; nothing else is iterable. *)
Definition iter (v : json) : result (list json) :=
  match v with
  | JArr l => Ok l
  | JObj kvs => Ok (map (fun kv => JStr (fst kv)) kvs)
  | JStr s => Ok (chars s)
  | _ => Raise TypeError
  end.

(** ["literal" + v]: defined for a str operand only. *)
Definition str_add (prefix : string) (v : json) : result string :=
  match v with
  | JStr s => Ok (prefix +:+ s)
  | _ => Raise TypeError
  end.

(** [v != "t1"] is false exactly when [v] is the str ["t1"]. *)
Definition eq_str (v : json) (s : string) : bool :=
  match v with
  | JStr s' => String.eqb s' s
  | _ => false
  end.

(** [v[1]] for a list [v]. *)
Definition second (v : json) : result json :=
  match v with
  | JArr l => match l !! 1 with Some x => Ok x | None => Raise IndexError end
  | _ => Raise TypeError
  end.

End Py.

(** ** Data model *)

(** The ["post"] dict stored in every result item. *)
Record post_info : Type := {
  post_id : json;
  post_title : json;
  post_permalink : string;
  post_index_in_hot : nat;
}.

(** One extracted comment: the seven keys are always present, a missing
    upstream field is [JNull] (Python's [None]). *)
Record comment : Type := {
  c_id : json;
  c_author : json;
  c_body : json;
  c_score : json;
  c_created_utc : json;
  c_parent_id : json;
  c_is_submitter : json;
}.

(** One element of [results].  The optional fields are the dict keys that
    only some of the three [results.append] sites set. *)
Record item : Type := {
  item_post : option post_info;
  item_comments : option (list comment);
  item_error : option string;
  item_note : option string;
  item_comments_count_returned : option nat;
}.

Definition unexpected_note : string := "Resposta inesperada da API de comentários.".
Definition first_batch_note : string :=
  "Somente a primeira leva; MoreComments não expandidos.".

(** The status of a result item, read off the keys the code sets. *)
Inductive status : Type :=
  | StatusOk
  | FetchError (message : string)
  | UnexpectedShape.

Definition status_of (it : item) : status :=
  match item_error it with
  | Some m => FetchError m
  | None =>
      if decide (item_note it = Some unexpected_note) then UnexpectedShape
      else StatusOk
  end.

Definition comments_of (it : item) : list comment :=
  default [] (item_comments it).

(** A CSV data row: the values handed to [writer.writerow]. *)
Record csv_row : Type := {
  row_subreddit : string;
  row_post_id : json;
  row_post_title : json;
  row_post_index_in_hot : json;
  row_post_permalink : json;
  row_comment_id : json;
  row_author : json;
  row_body : json;
  row_score : json;
  row_created_utc : json;
  row_parent_id : json;
  row_is_submitter : json;
}.

Definition fields : list string :=
  [ "subreddit";
    "post_id"; "post_title"; "post_index_in_hot"; "post_permalink";
    "comment_id"; "author"; "body"; "score"; "created_utc"; "parent_id";
    "is_submitter" ].

(** The dict returned to the caller. *)
Record summary : Type := {
  s_subreddit : string;
  posts_processed : nat;
  comments_total_returned : nat;
  csv_saved_to : string;
  max_posts_per_hot_request : Z;
}.

(** ** The outside world *)

(** The query sent for one post's comments ([post_url] and [params]). *)
Record comment_request : Type := {
  req_subreddit : string;
  req_post_id : json;
  req_limit : Z;
  req_depth : Z;
  req_sort : string;
}.

(** What lines 76-77 and 84 can do: [requests.get] raising before [r] is
    bound, [raise_for_status] raising for a bound [r], and [r.json()]. *)
Inductive listing_outcome : Type :=
  | ListingGetHTTPError (err : string)
  | ListingStatusError (status_code : Z) (err : string)
  | ListingOtherError (err : string)
  | ListingBadJson (err : string)
  | ListingResponse (posts_json : json).

Inductive fetch_failure : Type :=
  | NetworkError
  | Timeout
  | BadStatus (status_code : Z)
  | JsonParseFailure.

(** What lines 105-107 can do; [err] is [str(e)]. *)
Inductive comment_outcome : Type :=
  | CommentsRaise (why : fetch_failure) (err : string)
  | CommentsJson (comments_json : json).

(** What an operation on the output file can raise: an [OSError] (missing
    directory, permissions, full disk), a [UnicodeEncodeError] (a str with a
    lone surrogate cannot be encoded as UTF-8) or a [ValueError] (a null
    character in the file name). *)
Inductive io_exc : Type :=
  | IoOSError (msg : string)
  | IoUnicodeEncodeError (msg : string)
  | IoValueError (msg : string).

Definition exc_of_io (x : io_exc) : pyexc :=
  match x with
  | IoOSError msg => OSError msg
  | IoUnicodeEncodeError msg => UnicodeEncodeError msg
  | IoValueError msg => ValueError msg
  end.

(** Where the writer fails, if it does: [fname.open] (line 31),
    [writeheader] (line 33), the first [writerow] (line 37) whose position
    and row satisfy [bad], or the closing of the file when the [with] block
    ends. *)
Inductive write_fault : Type :=
  | OpenFails (x : io_exc)
  | HeaderFails (x : io_exc)
  | RowFails (bad : nat -> csv_row -> bool) (x : io_exc)
  | CloseFails (x : io_exc).

(** The oracles of one run.  The comment endpoint may answer differently
    each time it is asked: its answer depends on how many comment requests
    were issued before.  [env_write_error] is [None] when every operation
    on the output file succeeds. *)
Record env : Type := {
  env_listing : string -> Z -> listing_outcome;
  env_comments : nat -> comment_request -> comment_outcome;
  env_timestamp : string;
  env_write_error : option write_fault;
}.

(** [EvCsvWritten]: the file was opened, the header and all the rows were
    written and the file was closed.  [EvCsvAbandoned]: the file was created
    or truncated by [open], and an exception ended the [with] block after
    the header (if any) and these rows had been handed to the writer; the
    file stays on disk with at most that content. *)
Inductive event : Type :=
  | EvListingGet (subreddit : string) (posts_limit : Z)
  | EvCommentGet (req : comment_request)
  | EvSleep (ms : N)
  | EvCsvWritten (path : string) (header : list string) (rows : list csv_row)
  | EvCsvAbandoned (path : string) (header : list string) (rows : list csv_row).

(** The effects so far, oldest first. *)
Record world : Type := {
  trace : list event;
  fetches : nat;
}.

Definition initial_world : world := {| trace := []; fetches := 0 |}.

(** ** The monad of a run: state and exceptions *)

Definition M (A : Type) : Type := world -> result A * world.

#[global] Instance M_ret : MRet M := fun A a w => (Ok a, w).
#[global] Instance M_bind : MBind M := fun A B f m w =>
  match m w with
  | (Ok a, w') => f a w'
  | (Raise e, w') => (Raise e, w')
  end.

Definition lift {A} (r : result A) : M A := fun w => (r, w).
Definition raise {A} (e : pyexc) : M A := fun w => (Raise e, w).
Definition emit (ev : event) : M unit := fun w =>
  (Ok tt, {| trace := trace w ++ [ev]; fetches := fetches w |}).

Section Run.

Variable E : env.

Definition listing_get (subreddit : string) (posts_limit : Z) : M listing_outcome :=
  fun w =>
    (Ok (env_listing E subreddit posts_limit),
     {| trace := trace w ++ [EvListingGet subreddit posts_limit];
        fetches := fetches w |}).

Definition comments_get (req : comment_request) : M comment_outcome :=
  fun w =>
    (Ok (env_comments E (fetches w) req),
     {| trace := trace w ++ [EvCommentGet req]; fetches := S (fetches w) |}).

(** ** save_comments_csv *)

Definition row_of (subreddit : string) (post : option post_info) (c : comment) : csv_row :=
  {| row_subreddit := subreddit;
     row_post_id := from_option post_id JNull post;
     row_post_title := from_option post_title JNull post;
     row_post_index_in_hot :=
       from_option (fun p => JInt (Z.of_nat (post_index_in_hot p))) JNull post;
     row_post_permalink := from_option (fun p => JStr (post_permalink p)) JNull post;
     row_comment_id := c_id c;
     row_author := c_author c;
     row_body := c_body c;
     row_score := c_score c;
     row_created_utc := c_created_utc c;
     row_parent_id := c_parent_id c;
     row_is_submitter := c_is_submitter c |}.

(** The two nested [for] loops of lines 34-50. *)
Fixpoint csv_rows (subreddit : string) (results : list item) : list csv_row :=
  match results with
  | [] => []
  | it :: rest =>
      let post := item_post it in
      map (row_of subreddit post) (default [] (item_comments it))
        ++ csv_rows subreddit rest
  end.

(** The rows [writerow] accepts before the first one it rejects; [None]
    when it rejects none. *)
Fixpoint rows_before_fault (bad : nat -> csv_row -> bool) (k : nat)
    (rows : list csv_row) : option (list csv_row) :=
  match rows with
  | [] => None
  | r :: rest =>
      if bad k r then Some []
      else
        match rows_before_fault bad (S k) rest with
        | Some written => Some (r :: written)
        | None => None
        end
  end.

(** Lines 25-51.  [fname.open("w")] creates or truncates the file before
    anything is written, so an exception raised after it leaves the file on
    disk with what had been handed to the writer until then. *)
Definition save_comments_csv (subreddit : string) (results : list item) : M string :=
  let fname :=
    "data/reddit_" +:+ subreddit +:+ "_comments_" +:+ env_timestamp E +:+ ".csv" in
  let rows := csv_rows subreddit results in
  match env_write_error E with
  | None =>
      _ ← emit (EvCsvWritten fname fields rows);
      mret fname
  | Some (OpenFails x) => raise (exc_of_io x)
  | Some (HeaderFails x) =>
      _ ← emit (EvCsvAbandoned fname [] []);
      raise (exc_of_io x)
  | Some (RowFails bad x) =>
      match rows_before_fault bad 0 rows with
      | Some written =>
          _ ← emit (EvCsvAbandoned fname fields written);
          raise (exc_of_io x)
      | None =>
          _ ← emit (EvCsvWritten fname fields rows);
          mret fname
      end
  | Some (CloseFails x) =>
      _ ← emit (EvCsvAbandoned fname fields rows);
      raise (exc_of_io x)
  end.

(** ** The body of the [for idx, child] loop *)

Definition host : string := "https://www.reddit.com".

(** Lines 92-95. *)
Definition post_of_child (idx : nat) (child : json) : result post_info :=
  data ← Py.get child "data" (JObj []);
  pid ← Py.get data "id" JNull;
  title ← Py.get data "title" JNull;
  link ← Py.get data "permalink" (JStr "");
  permalink ← Py.str_add host link;
  mret {| post_id := pid; post_title := title;
          post_permalink := permalink; post_index_in_hot := idx |}.

(** Line 118. *)
Definition unexpected_shape (comments_json : json) : bool :=
  match comments_json with
  | JArr l => length l <? 2
  | _ => true
  end.

(** Lines 128-132. *)
Definition comments_children (comments_json : json) : result json :=
  snd_elt ← Py.second comments_json;
  data ← Py.get snd_elt "data" (JObj []);
  Py.get data "children" (JArr []).

(** Lines 136-147 for one child [c]: [None] stands for [continue]. *)
Definition extract_one (c : json) : result (option comment) :=
  kind ← Py.get c "kind" JNull;
  if negb (Py.eq_str kind "t1") then mret None
  else
    cd ← Py.get c "data" (JObj []);
    cid ← Py.get cd "id" JNull;
    author ← Py.get cd "author" JNull;
    body ← Py.get cd "body" JNull;
    score ← Py.get cd "score" JNull;
    created ← Py.get cd "created_utc" JNull;
    parent ← Py.get cd "parent_id" JNull;
    submitter ← Py.get cd "is_submitter" JNull;
    mret (Some {| c_id := cid; c_author := author; c_body := body;
                  c_score := score; c_created_utc := created;
                  c_parent_id := parent; c_is_submitter := submitter |}).

(** Lines 134-147: [extracted] grows by [append]. *)
Fixpoint extract_loop (cs : list json) (extracted : list comment)
  : result (list comment) :=
  match cs with
  | [] => Ok extracted
  | c :: rest =>
      o ← extract_one c;
      match o with
      | None => extract_loop rest extracted
      | Some cm => extract_loop rest (extracted ++ [cm])
      end
  end.

(** Lines 128-147. *)
Definition extract_comments (comments_json : json) : result (list comment) :=
  children ← comments_children comments_json;
  cs ← Py.iter children;
  extract_loop cs [].

(** [if polite_delay_ms: time.sleep(polite_delay_ms / 1000.0)].  The
    endpoint declares [polite_delay_ms] with [ge=0], hence the type. *)
Definition polite_sleep (polite_delay_ms : N) : M unit :=
  if (polite_delay_ms =? 0)%N then mret tt else emit (EvSleep polite_delay_ms).

Definition error_item (post : post_info) (err : string) : item :=
  {| item_post := Some post;
     item_comments := Some [];
     item_error := Some ("Erro ao buscar comentários: " +:+ err);
     item_note := None;
     item_comments_count_returned := None |}.

Definition unexpected_item (post : post_info) : item :=
  {| item_post := Some post;
     item_comments := Some [];
     item_error := None;
     item_note := Some unexpected_note;
     item_comments_count_returned := None |}.

Definition ok_item (post : post_info) (extracted : list comment) : item :=
  {| item_post := Some post;
     item_comments := Some extracted;
     item_error := None;
     item_note := Some first_batch_note;
     item_comments_count_returned := Some (length extracted) |}.

Section Params.

Variables (subreddit : string) (comments_limit depth : Z) (sort : string)
          (polite_delay_ms : N).

Definition request_for (post : post_info) : comment_request :=
  {| req_subreddit := subreddit;
     req_post_id := post_id post;
     req_limit := comments_limit;
     req_depth := depth;
     req_sort := sort |}.

(** Lines 92-162: one iteration; the result is [results] after it. *)
Definition post_iteration (idx : nat) (child : json) (results : list item)
  : M (list item) :=
  post ← lift (post_of_child idx child);
  rc ← comments_get (request_for post);
  match rc with
  | CommentsRaise _ err =>
      let results := results ++ [error_item post err] in
      _ ← polite_sleep polite_delay_ms;
      mret results
  | CommentsJson comments_json =>
      if unexpected_shape comments_json then
        let results := results ++ [unexpected_item post] in
        _ ← polite_sleep polite_delay_ms;
        mret results
      else
        extracted ← lift (extract_comments comments_json);
        let results := results ++ [ok_item post extracted] in
        _ ← polite_sleep polite_delay_ms;
        mret results
  end.

(** [for idx, child in enumerate(children, start=idx)]. *)
Fixpoint for_posts (idx : nat) (children : list json) (results : list item)
  : M (list item) :=
  match children with
  | [] => mret results
  | child :: rest =>
      results' ← post_iteration idx child results;
      for_posts (S idx) rest results'
  end.

End Params.

(** Lines 85: [posts_json.get("data", {}).get("children", [])]. *)
Definition listing_children (posts_json : json) : result json :=
  data ← Py.get posts_json "data" (JObj []);
  Py.get data "children" (JArr []).

Definition total_comments (results : list item) : nat :=
  list_sum (map (fun x => length (default [] (item_comments x))) results).

(** Lines 74-162: everything up to the complete [results] list. *)
Definition collect_results (subreddit : string) (posts_limit comments_limit depth : Z)
    (sort : string) (polite_delay_ms : N) : M (list item) :=
  o ← listing_get subreddit posts_limit;
  match o with
  | ListingGetHTTPError err =>
      raise (HTTPException 500 ("Erro HTTP ao listar posts: " +:+ err))
  | ListingStatusError code err =>
      raise (HTTPException code ("Erro HTTP ao listar posts: " +:+ err))
  | ListingOtherError err =>
      raise (HTTPException 500 ("Erro ao listar posts: " +:+ err))
  | ListingBadJson err => raise (JSONDecodeError err)
  | ListingResponse posts_json =>
      children ← lift (listing_children posts_json);
      if negb (Py.truthy children) then
        raise (HTTPException 404 "Nenhum post encontrado nesse subreddit.")
      else
        entries ← lift (Py.iter children);
        for_posts subreddit comments_limit depth sort polite_delay_ms 1 entries []
  end.

(** The endpoint function, lines 58-175. *)
Definition reddit_hot_comments_to_csv (subreddit : string)
    (posts_limit comments_limit depth : Z) (sort : string) (polite_delay_ms : N)
    : M summary :=
  results ← collect_results subreddit posts_limit comments_limit depth sort
              polite_delay_ms;
  csv_path ← save_comments_csv subreddit results;
  mret {| s_subreddit := subreddit;
          posts_processed := length results;
          comments_total_returned := total_comments results;
          csv_saved_to := csv_path;
          max_posts_per_hot_request := 100 |}.

End Run.

(** * Vocabulary of the properties *)

(** ** Effects and items of the loop *)

Definition sleep_events (polite_delay_ms : N) : list event :=
  if (polite_delay_ms =? 0)%N then [] else [EvSleep polite_delay_ms].

Definition after (w : world) (evs : list event) (n : nat) : world :=
  {| trace := trace w ++ evs; fetches := fetches w + n |}.

(** The item an iteration appends, as a function of the post and of the
    answer of the comment endpoint. *)
Definition new_item (post : post_info) (rc : comment_outcome) : result item :=
  match rc with
  | CommentsRaise _ err => Ok (error_item post err)
  | CommentsJson comments_json =>
      if unexpected_shape comments_json then Ok (unexpected_item post)
      else
        match extract_comments comments_json with
        | Ok extracted => Ok (ok_item post extracted)
        | Raise e => Raise e
        end
  end.

Section Vocabulary.

Variable E : env.
Variables (subreddit : string) (comments_limit depth : Z) (sort : string)
          (polite_delay_ms : N).

Local Abbreviation request := (request_for subreddit comments_limit depth sort).

(** The effects of one completed iteration. *)
Definition iteration_events (post : post_info) : list event :=
  EvCommentGet (request post) :: sleep_events polite_delay_ms.

(** [produced n idx child it]: for the listing entry [child] of rank [idx],
    whose comments are the [n]-th comment request of the run, the iteration
    records [it]. *)
Definition produced (n idx : nat) (child : json) (it : item) : Prop :=
  exists post,
    post_of_child idx child = Ok post
    /\ new_item post (env_comments E n (request post)) = Ok it.

Fixpoint items_match (n idx : nat) (children : list json) (new : list item)
  : Prop :=
  match children, new with
  | [], [] => True
  | child :: cs, it :: its =>
      produced n idx child it /\ items_match (S n) (S idx) cs its
  | _, _ => False
  end.

(** The effects of the iterations that recorded [new]. *)
Fixpoint loop_events (new : list item) : list event :=
  match new with
  | [] => []
  | it :: rest => from_option iteration_events [] (item_post it) ++ loop_events rest
  end.

End Vocabulary.

(** Entries and answers for which nothing outside the [try] can raise. *)
Definition entry_ok (child : json) : bool := is_ok (post_of_child 0 child).

Definition answer_ok (rc : comment_outcome) : bool :=
  match rc with
  | CommentsRaise _ _ => true
  | CommentsJson cj => unexpected_shape cj || is_ok (extract_comments cj)
  end.

Definition csv_name (E : env) (subreddit : string) : string :=
  "data/reddit_" +:+ subreddit +:+ "_comments_" +:+ env_timestamp E +:+ ".csv".

(** Where and how a write stops short: at the opening, with no file, or
    after it, with a file holding at most [header] and [rows]. *)
Inductive write_stop : Type :=
  | StoppedAtOpen (x : io_exc)
  | StoppedAfterOpen (header : list string) (rows : list csv_row) (x : io_exc).

(** The stop a fault causes on given rows; a fault on rows that none of the
    rows meets causes none. *)
Definition write_stop_of (fault : option write_fault) (rows : list csv_row)
  : option write_stop :=
  match fault with
  | None => None
  | Some (OpenFails x) => Some (StoppedAtOpen x)
  | Some (HeaderFails x) => Some (StoppedAfterOpen [] [] x)
  | Some (RowFails bad x) =>
      match rows_before_fault bad 0 rows with
      | Some written => Some (StoppedAfterOpen fields written x)
      | None => None
      end
  | Some (CloseFails x) => Some (StoppedAfterOpen fields rows x)
  end.


(** ** Listing stage *)

(** The status the caller sees when the listing stage ends the run: the
    upstream status code of a failed response, 500 for any other failure of
    the request, 404 for a listing without entries. *)
Definition listing_abort_status (o : listing_outcome) : option Z :=
  match o with
  | ListingStatusError code _ => Some code
  | ListingGetHTTPError _ => Some 500%Z
  | ListingOtherError _ => Some 500%Z
  | ListingBadJson _ => None
  | ListingResponse posts_json =>
      match listing_children posts_json with
      | Ok children => if Py.truthy children then None else Some 404%Z
      | Raise _ => None
      end
  end.


Definition is_sleep (ev : event) : bool :=
  match ev with
  | EvSleep _ => true
  | _ => false
  end.

(** ** Items and listing entries *)

Definition index_of (it : item) : option nat :=
  post_index_in_hot <$> item_post it.

(** The [permalink] field of a listing entry, when the entry has one. *)
Definition upstream_permalink (child : json) : option json :=
  match child with
  | JObj kvs =>
      match default (JObj []) (Py.lookup_key "data" kvs) with
      | JObj d => Py.lookup_key "permalink" d
      | _ => None
      end
  | _ => None
  end.

(** ** Comment forests *)

(** The comment forest of an answer: the [children] list under [data] in the
    second element, each of the two keys defaulting to an empty container. *)
Definition forest_of (comments_json : json) : option (list json) :=
  match comments_json with
  | JArr (_ :: JObj kvs :: _) =>
      match default (JObj []) (Py.lookup_key "data" kvs) with
      | JObj d =>
          match default (JArr []) (Py.lookup_key "children" d) with
          | JArr cs => Some cs
          | _ => None
          end
      | _ => None
      end
  | _ => None
  end.

(** A node whose discriminator says it is a comment. *)
Definition is_comment_node (c : json) : bool :=
  match c with
  | JObj kvs => Py.eq_str (default JNull (Py.lookup_key "kind" kvs)) "t1"
  | _ => false
  end.

(** The payload of a node; a node without [data] has an empty payload. *)
Definition node_data (c : json) : option (list (string * json)) :=
  match c with
  | JObj kvs =>
      match default (JObj []) (Py.lookup_key "data" kvs) with
      | JObj d => Some d
      | _ => None
      end
  | _ => None
  end.

(** A field of a node, null when missing. *)
Definition node_field (c : json) (k : string) : json :=
  default JNull (node_data c ≫= Py.lookup_key k).

Definition comment_of_node (c : json) : comment :=
  {| c_id := node_field c "id";
     c_author := node_field c "author";
     c_body := node_field c "body";
     c_score := node_field c "score";
     c_created_utc := node_field c "created_utc";
     c_parent_id := node_field c "parent_id";
     c_is_submitter := node_field c "is_submitter" |}.

(** Nodes the loop can handle: objects, and for comment nodes a payload that
    is an object (or no payload at all). *)
Definition node_ok (c : json) : bool :=
  match c with
  | JObj _ => if is_comment_node c then bool_decide (is_Some (node_data c)) else true
  | _ => false
  end.

(** Lines 118-147 as a function of the answer. *)
Definition flatten (comments_json : json) : result (list comment) :=
  if unexpected_shape comments_json then Ok [] else extract_comments comments_json.

(** What an iteration leaves as the comments of the item it appended, or
    the exception it raised. *)
Definition recorded_comments (r : result (list item) * world)
  : result (option (list comment)) :=
  match fst r with
  | Ok results => Ok (last results ≫= item_comments)
  | Raise e => Raise e
  end.

(** ** Sample data *)

Module Demo.

(** A listing entry as the hot endpoint returns it. *)
Definition entry (pid title link : string) : json :=
  JObj [("kind", JStr "t3");
        ("data", JObj [("id", JStr pid); ("title", JStr title);
                       ("permalink", JStr link)])].

(** A node of the comment forest. *)
Definition node (kind cid body : string) : json :=
  JObj [("kind", JStr kind);
        ("data", JObj [("id", JStr cid); ("body", JStr body); ("score", JInt 7)])].

Definition post_a : json := entry "a" "First" "/r/x/comments/a/".
Definition post_b : json := entry "b" "Second" "/r/x/comments/b/".
(** An entry with neither title nor permalink. *)
Definition post_c : json := JObj [("data", JObj [("id", JStr "c")])].

Definition listing : json :=
  JObj [("data", JObj [("children", JArr [post_a; post_b; post_c])])].

Definition forest : list json :=
  [node "t1" "c1" "hello"; node "more" "m1" ""; node "t1" "c2" "world"].

Definition comments : json :=
  JArr [JObj [("data", JObj [])];
        JObj [("data", JObj [("children", JArr forest)])]].

(** The first comment request succeeds, the second times out, the third
    answers with a one-element list, later ones succeed. *)
Definition world_env : env :=
  {| env_listing := fun _ _ => ListingResponse listing;
     env_comments := fun n _ =>
       match n with
       | 1 => CommentsRaise Timeout "Read timed out."
       | 2 => CommentsJson (JArr [JObj []])
       | _ => CommentsJson comments
       end;
     env_timestamp := "2024-05-01_12-00-00";
     env_write_error := None |}.

(** The listing request is answered with HTTP 503. *)
Definition unavailable_env : env :=
  {| env_listing := fun _ _ =>
       ListingStatusError 503 "503 Server Error: Service Unavailable";
     env_comments := fun _ _ => CommentsJson comments;
     env_timestamp := "2024-05-01_12-00-00";
     env_write_error := None |}.

Definition run (E : env) (posts_limit : Z) (polite_delay_ms : N)
  : result summary * world :=
  reddit_hot_comments_to_csv E "x" posts_limit 200 2 "confidence" polite_delay_ms
    initial_world.

Definition results_of (E : env) (posts_limit : Z) (polite_delay_ms : N)
  : result (list item) * world :=
  collect_results E "x" posts_limit 200 2 "confidence" polite_delay_ms initial_world.

End Demo.

(** ** Malformed answers *)

(** A comment node whose [data] is null. *)
Definition null_data_answer : json :=
  JArr [JObj [];
        JObj [("data",
               JObj [("children",
                      JArr [JObj [("kind", JStr "t1"); ("data", JNull)]])])]].

Definition null_data_env : env :=
  {| env_listing := fun _ _ => ListingResponse Demo.listing;
     env_comments := fun _ _ => CommentsJson null_data_answer;
     env_timestamp := "2024-05-01_12-00-00";
     env_write_error := None |}.

(** ** Counting effects *)

Definition is_listing_get (ev : event) : bool :=
  match ev with
  | EvListingGet _ _ => true
  | _ => false
  end.

Definition is_comment_get (ev : event) : bool :=
  match ev with
  | EvCommentGet _ => true
  | _ => false
  end.


Definition count_events (p : event -> bool) (evs : list event) : nat :=
  length (List.filter p evs).

(** The comment requests of a trace, oldest first. *)
Fixpoint comment_requests (evs : list event) : list comment_request :=
  match evs with
  | [] => []
  | EvCommentGet req :: rest => req :: comment_requests rest
  | _ :: rest => comment_requests rest
  end.

(** The request the loop sends for a listing entry: the [id] of the entry
    (null when missing) and the parameters of the run. *)
Definition request_of_entry (subreddit : string) (comments_limit depth : Z)
    (sort : string) (child : json) : comment_request :=
  {| req_subreddit := subreddit;
     req_post_id := node_field child "id";
     req_limit := comments_limit;
     req_depth := depth;
     req_sort := sort |}.

(** The exceptions dynamic typing can raise inside the loop. *)
Definition is_type_error (e : pyexc) : bool :=
  match e with
  | AttributeError | TypeError => true
  | _ => false
  end.

(** The rank written in a row. *)
Definition row_rank (r : csv_row) : Z :=
  match row_post_index_in_hot r with
  | JInt k => k
  | _ => 0%Z
  end.

(** ** File names *)

(** The reading of the clock that [datetime.now()] returns, to the second. *)
Record datetime : Type := {
  dt_year : nat;
  dt_month : nat;
  dt_day : nat;
  dt_hour : nat;
  dt_minute : nat;
  dt_second : nat;
}.

Definition valid_datetime (now : datetime) : Prop :=
  1000 <= dt_year now < 10 * 1000
  /\ 1 <= dt_month now <= 12
  /\ 1 <= dt_day now <= 31
  /\ dt_hour now <= 23
  /\ dt_minute now <= 59
  /\ dt_second now <= 59.

Definition digit (n : nat) : Ascii.ascii :=
  match n with
  | 0 => "0" | 1 => "1" | 2 => "2" | 3 => "3" | 4 => "4"
  | 5 => "5" | 6 => "6" | 7 => "7" | 8 => "8" | _ => "9"
  end%char.

(** [%m], [%d], [%H], [%M], [%S]: two digits, zero-padded. *)
Definition pad2 (n : nat) : string :=
  String (digit (n / 10)) (String (digit (n mod 10)) EmptyString).

(** [%Y] for a year of four digits. *)
Definition pad4 (n : nat) : string :=
  String (digit (n / 1000))
    (String (digit (n / 100 mod 10))
       (String (digit (n / 10 mod 10)) (String (digit (n mod 10)) EmptyString))).

(** [_timestamp()], lines 14-15: [now.strftime("%Y-%m-%d_%H-%M-%S")]. *)
Definition _timestamp (now : datetime) : string :=
  pad4 (dt_year now) +:+ "-" +:+ pad2 (dt_month now) +:+ "-" +:+ pad2 (dt_day now)
    +:+ "_" +:+ pad2 (dt_hour now) +:+ "-" +:+ pad2 (dt_minute now)
    +:+ "-" +:+ pad2 (dt_second now).

(** ** More sample data *)




(** The listing body is an object whose [children] is a number. *)
Definition numeric_children_env : env :=
  {| env_listing := fun _ _ =>
       ListingResponse (JObj [("data", JObj [("children", JInt 3)])]);
     env_comments := fun _ _ => CommentsJson Demo.comments;
     env_timestamp := "2024-05-01_12-00-00";
     env_write_error := None |}.

(** Noon of the first of May 2024, the clock of the sample environments. *)
Definition sample_noon : datetime :=
  {| dt_year := 2024; dt_month := 5; dt_day := 1;
     dt_hour := 12; dt_minute := 0; dt_second := 0 |}.

(** The listing is served, every comment request is refused. *)
Definition offline_comments_env : env :=
  {| env_listing := fun _ _ => ListingResponse Demo.listing;
     env_comments := fun _ _ => CommentsRaise NetworkError "Connection refused";
     env_timestamp := "2024-05-01_12-00-00";
     env_write_error := None |}.

(** The second comment of a post cannot be encoded: its body holds a lone
    surrogate. *)
Definition unencodable_comment_env : env :=
  {| env_listing := fun _ _ => ListingResponse Demo.listing;
     env_comments := env_comments Demo.world_env;
     env_timestamp := "2024-05-01_12-00-00";
     env_write_error :=
       Some (RowFails (fun _ r => Py.eq_str (row_comment_id r) "c2")
               (IoUnicodeEncodeError
                  "'utf-8' codec can't encode character: surrogates not allowed")) |}.

(** * Properties of the program *)

(** ** Reasoning about the monad *)

Ltac unfold_monad :=
  unfold mbind, mret, M_bind, M_ret, result_bind, result_ret, lift, raise, emit in *.

Ltac run_monad := unfold_monad; simpl in *.

Lemma result_bind_ok {A B} (m : result A) (f : A -> result B) (b : B) :
  m ≫= f = Ok b -> exists a, m = Ok a /\ f a = Ok b.
Proof. destruct m as [a|e]; unfold_monad; [eauto | discriminate]. Qed.

(** ** Python primitives: basic facts *)

Lemma get_ok_inv (v : json) (k : string) (dflt x : json) :
  Py.get v k dflt = Ok x ->
  exists kvs, v = JObj kvs /\ x = default dflt (Py.lookup_key k kvs).
Proof. destruct v; simpl; intros H; try discriminate. inversion H; eauto. Qed.

(** ** The events and the item of one iteration *)

Lemma after_after (w : world) (e1 e2 : list event) (n1 n2 : nat) :
  after (after w e1 n1) e2 n2 = after w (e1 ++ e2) (n1 + n2).
Proof. unfold after; simpl. f_equal; [now rewrite <- app_assoc | lia]. Qed.

Lemma after_nil (w : world) : after w [] 0 = w.
Proof. destruct w; unfold after; simpl. now rewrite app_nil_r, Nat.add_0_r. Qed.

Lemma polite_sleep_run (d : N) (w : world) :
  polite_sleep d w = (Ok tt, after w (sleep_events d) 0).
Proof.
  unfold polite_sleep, sleep_events. destruct (d =? 0)%N.
  - now rewrite after_nil.
  - unfold emit, after. now rewrite Nat.add_0_r.
Qed.

Section Iteration.

Variable E : env.
Variables (subreddit : string) (comments_limit depth : Z) (sort : string)
          (polite_delay_ms : N).

Local Abbreviation request := (request_for subreddit comments_limit depth sort).
Local Abbreviation iteration :=
  (post_iteration E subreddit comments_limit depth sort polite_delay_ms).
Local Abbreviation loop :=
  (for_posts E subreddit comments_limit depth sort polite_delay_ms).
Local Abbreviation events_of :=
  (iteration_events subreddit comments_limit depth sort polite_delay_ms).

(** One iteration, in closed form. *)
Lemma post_iteration_unfold (idx : nat) (child : json) (results : list item)
    (w : world) :
  iteration idx child results w =
    match post_of_child idx child with
    | Raise e => (Raise e, w)
    | Ok post =>
        match new_item post (env_comments E (fetches w) (request post)) with
        | Ok it => (Ok (results ++ [it]), after w (events_of post) 1)
        | Raise e => (Raise e, after w [EvCommentGet (request post)] 1)
        end
    end.
Proof.
  unfold post_iteration, iteration_events.
  destruct (post_of_child idx child) as [post|e] eqn:Hp; [|reflexivity].
  unfold mbind at 1, M_bind, lift at 1.
  unfold mbind at 1, M_bind, comments_get.
  set (w1 := {| trace := _; fetches := S _ |}).
  assert (Hw1 : w1 = after w [EvCommentGet (request post)] 1).
  { unfold w1, after. f_equal. lia. }
  assert (Hs : forall r : list item,
    (polite_sleep polite_delay_ms ≫= fun _ => mret r) w1
    = (Ok r, after w (EvCommentGet (request post) :: sleep_events polite_delay_ms) 1)).
  { intros r. unfold mbind, M_bind. rewrite polite_sleep_run, Hw1, after_after.
    reflexivity. }
  destruct (env_comments E (fetches w) (request post)) as [why err|cj]; simpl.
  - apply Hs.
  - destruct (unexpected_shape cj).
    + apply Hs.
    + unfold mbind at 1, M_bind, lift.
      destruct (extract_comments cj) as [ex|e].
      * apply Hs.
      * now rewrite Hw1.
Qed.

(** The loop distributes over a split of the listing. *)
Lemma for_posts_app (pre rest : list json) (idx : nat) (results : list item)
    (w : world) :
  loop idx (pre ++ rest) results w =
    match loop idx pre results w with
    | (Ok acc, w1) => loop (idx + length pre) rest acc w1
    | (Raise e, w1) => (Raise e, w1)
    end.
Proof.
  revert idx results w.
  induction pre as [|child pre IH]; intros idx results w; simpl.
  - unfold mret, M_ret. now rewrite Nat.add_0_r.
  - unfold mbind, M_bind.
    destruct (iteration idx child results w) as [[acc|e] w1]; [|reflexivity].
    fold (loop (S idx) (pre ++ rest) acc w1). rewrite IH.
    now replace (idx + S (length pre)) with (S idx + length pre) by lia.
Qed.

End Iteration.

(** ** The item of one iteration: basic facts *)

Lemma new_item_post (post : post_info) (rc : comment_outcome) (it : item) :
  new_item post rc = Ok it -> item_post it = Some post.
Proof.
  destruct rc as [why err|cj]; simpl.
  - now intros [= <-].
  - destruct (unexpected_shape cj); [now intros [= <-]|].
    destruct (extract_comments cj); [now intros [= <-] | discriminate].
Qed.

(** The three shapes an appended item can have. *)
Lemma new_item_cases (post : post_info) (rc : comment_outcome) (it : item) :
  new_item post rc = Ok it ->
  (exists why err, rc = CommentsRaise why err /\ it = error_item post err)
  \/ (exists cj, rc = CommentsJson cj /\ unexpected_shape cj = true
                 /\ it = unexpected_item post)
  \/ (exists cj extracted, rc = CommentsJson cj /\ unexpected_shape cj = false
                 /\ extract_comments cj = Ok extracted
                 /\ it = ok_item post extracted).
Proof.
  destruct rc as [why err|cj]; simpl.
  - intros [= <-]. left; eauto.
  - destruct (unexpected_shape cj) eqn:Hs.
    + intros [= <-]. right; left; eauto.
    + destruct (extract_comments cj) as [ex|e] eqn:He; [|discriminate].
      intros [= <-]. right; right; eauto 6.
Qed.

Lemma post_of_child_index (idx : nat) (child : json) (post : post_info) :
  post_of_child idx child = Ok post -> post_index_in_hot post = idx.
Proof.
  unfold post_of_child. intros H.
  repeat (apply result_bind_ok in H; destruct H as (? & _ & H)).
  unfold mret, result_ret in H. now inversion H.
Qed.

(** The rank only fills the [index_in_hot] field. *)
Lemma post_of_child_reindex (i j : nat) (child : json) (post : post_info) :
  post_of_child i child = Ok post ->
  post_of_child j child =
    Ok {| post_id := post_id post; post_title := post_title post;
          post_permalink := post_permalink post; post_index_in_hot := j |}.
Proof.
  unfold post_of_child. unfold_monad.
  destruct (Py.get child "data" (JObj [])) as [data|]; [|discriminate].
  destruct (Py.get data "id" JNull); [|discriminate].
  destruct (Py.get data "title" JNull); [|discriminate].
  destruct (Py.get data "permalink" (JStr "")) as [link|]; [|discriminate].
  destruct (Py.str_add host link); [|discriminate].
  now intros [= <-].
Qed.

Section Loop.

Variable E : env.
Variables (subreddit : string) (comments_limit depth : Z) (sort : string)
          (polite_delay_ms : N).

Local Abbreviation request := (request_for subreddit comments_limit depth sort).
Local Abbreviation loop :=
  (for_posts E subreddit comments_limit depth sort polite_delay_ms).
Local Abbreviation made := (produced E subreddit comments_limit depth sort).
Local Abbreviation matching := (items_match E subreddit comments_limit depth sort).
Local Abbreviation events :=
  (loop_events subreddit comments_limit depth sort polite_delay_ms).

Lemma items_match_length (n idx : nat) (children : list json) (new : list item) :
  matching n idx children new -> length new = length children.
Proof.
  revert n idx new. induction children as [|c cs IH]; intros n idx [|it its]; simpl;
    try tauto.
  intros [_ H]. f_equal. eauto.
Qed.

Lemma items_match_lookup (n idx : nat) (children : list json) (new : list item)
    (k : nat) (it : item) :
  matching n idx children new -> new !! k = Some it ->
  exists child, children !! k = Some child /\ made (n + k) (idx + k) child it.
Proof.
  revert n idx new k. induction children as [|c cs IH]; intros n idx [|it' its] k;
    simpl; try tauto; try discriminate.
  intros [Hp Hm]. destruct k as [|k]; simpl.
  - intros [= ->]. exists c. now rewrite !Nat.add_0_r.
  - intros Hk. destruct (IH _ _ _ _ Hm Hk) as (child & Hc & Hpr).
    exists child. split; [easy|].
    now replace (n + S k) with (S n + k) by lia;
        replace (idx + S k) with (S idx + k) by lia.
Qed.

(** The loop returns exactly when every entry produces an item, and then
    it appends those items, in order, to the items already there. *)
Lemma for_posts_ok_iff (children : list json) (idx : nat) (results res : list item)
    (w w' : world) :
  loop idx children results w = (Ok res, w') <->
  exists new,
    res = results ++ new
    /\ matching (fetches w) idx children new
    /\ w' = after w (events new) (length children).
Proof.
  revert idx results res w w'.
  induction children as [|child cs IH]; intros idx results res w w'; simpl.
  - unfold mret, M_ret. split.
    + intros [= <- <-]. exists []. now rewrite app_nil_r, after_nil.
    + intros ([|it its] & -> & Hm & ->); [|tauto].
      now rewrite app_nil_r, after_nil.
  - unfold mbind, M_bind. rewrite post_iteration_unfold. split.
    + destruct (post_of_child idx child) as [post|e] eqn:Hp; [|discriminate].
      destruct (new_item post _) as [it|e] eqn:Hn; [|discriminate].
      intros H. apply IH in H. destruct H as (new & -> & Hm & ->).
      exists (it :: new). split; [now rewrite <- app_assoc|]. split.
      * simpl. split; [exists post; eauto|].
        simpl in Hm. now rewrite Nat.add_1_r in Hm.
      * rewrite after_after. simpl. now rewrite (new_item_post _ _ _ Hn).
    + intros ([|it new] & -> & Hm & ->); [tauto|].
      destruct Hm as [(post & Hp & Hn) Hm]. rewrite Hp, Hn.
      apply IH. exists new. split; [now rewrite <- app_assoc|]. split.
      * simpl. now rewrite Nat.add_1_r.
      * rewrite after_after. simpl. now rewrite (new_item_post _ _ _ Hn).
Qed.

Lemma new_item_total (post : post_info) (rc : comment_outcome) :
  answer_ok rc = true -> exists it, new_item post rc = Ok it.
Proof.
  destruct rc as [why err|cj]; simpl; [eauto|].
  destruct (unexpected_shape cj); simpl; [eauto|].
  destruct (extract_comments cj); [eauto | discriminate].
Qed.

Lemma items_match_total (children : list json) (n idx : nat) :
  Forall (fun c => entry_ok c = true) children ->
  (forall m req, answer_ok (env_comments E m req) = true) ->
  exists new, matching n idx children new.
Proof.
  intros Hc Ha. revert n idx.
  induction Hc as [|c cs Hc _ IH]; intros n idx.
  - now exists [].
  - unfold entry_ok in Hc.
    destruct (post_of_child 0 c) as [p0|] eqn:Hp0; [|discriminate].
    pose proof (post_of_child_reindex 0 idx c p0 Hp0) as Hp.
    set (p := {| post_id := post_id p0; post_index_in_hot := idx |}) in Hp.
    destruct (new_item_total p (env_comments E n (request p)) (Ha n _)) as [it Hit].
    destruct (IH (S n) (S idx)) as [new Hnew].
    exists (it :: new). simpl. split; [|easy]. eexists. split; [exact Hp | exact Hit].
Qed.

(** The complete list of results, lines 74-162. *)
Lemma collect_results_ok_iff (posts_limit : Z) (results : list item) (w w' : world) :
  collect_results E subreddit posts_limit comments_limit depth sort polite_delay_ms w
    = (Ok results, w') <->
  exists posts_json entries,
    env_listing E subreddit posts_limit = ListingResponse posts_json
    /\ listing_children posts_json = Ok (JArr entries)
    /\ entries <> []
    /\ matching (fetches w) 1 entries results
    /\ w' = after w (EvListingGet subreddit posts_limit :: events results)
              (length entries).
Proof.
  unfold collect_results. unfold mbind at 1, M_bind, listing_get.
  set (w1 := {| trace := _; fetches := fetches w |}).
  assert (Hw1 : w1 = after w [EvListingGet subreddit posts_limit] 0).
  { unfold w1, after. f_equal. lia. }
  split.
  - destruct (env_listing E subreddit posts_limit) as [| | | |pj] eqn:HL;
      try discriminate.
    unfold mbind at 1, M_bind, lift at 1.
    destruct (listing_children pj) as [children|] eqn:Hch; [|discriminate].
    destruct (Py.truthy children) eqn:Ht; simpl; [|discriminate].
    unfold mbind at 1, M_bind, lift at 1.
    destruct (Py.iter children) as [entries|] eqn:Hit; [|discriminate].
    intros H. apply for_posts_ok_iff in H. destruct H as (new & -> & Hm & ->).
    simpl in Hm.
    assert (Hobj : forall c cs its, entries = c :: cs ->
              matching (fetches w) 1 (c :: cs) its -> exists kvs, c = JObj kvs).
    { intros c cs [|it its] _; simpl; [tauto|]. intros [(post & Hp & _) _].
      unfold post_of_child in Hp. apply result_bind_ok in Hp.
      destruct Hp as (data & Hd & _). apply get_ok_inv in Hd.
      destruct Hd as (kvs & -> & _). eauto. }
    destruct children as [| | | |s|l|kvs]; simpl in Hit; try discriminate.
    + destruct s as [|a s]; [discriminate|]. inversion Hit; subst entries.
      destruct (Hobj _ _ _ eq_refl Hm) as [kvs Hk]. discriminate.
    + inversion Hit; subst entries. exists pj, l. repeat split; try easy.
      * intros ->. discriminate.
      * rewrite Hw1, after_after. reflexivity.
    + destruct kvs as [|kv kvs]; [discriminate|]. inversion Hit; subst entries.
      destruct (Hobj _ _ _ eq_refl Hm) as [kvs' Hk]. discriminate.
  - intros (pj & entries & HL & Hch & Hne & Hm & ->). rewrite HL.
    unfold mbind at 1, M_bind, lift at 1. rewrite Hch.
    assert (Ht : Py.truthy (JArr entries) = true) by (now destruct entries).
    rewrite Ht. simpl. unfold mbind at 1, M_bind, lift at 1.
    apply for_posts_ok_iff. exists results. repeat split; [easy|].
    rewrite Hw1, after_after. reflexivity.
Qed.

End Loop.

(** ** The whole run *)

Lemma save_comments_csv_run (E : env) (subreddit : string) (results : list item)
    (w : world) :
  save_comments_csv E subreddit results w =
    match write_stop_of (env_write_error E) (csv_rows subreddit results) with
    | None =>
        (Ok (csv_name E subreddit),
         after w [EvCsvWritten (csv_name E subreddit) fields
                    (csv_rows subreddit results)] 0)
    | Some (StoppedAtOpen x) => (Raise (exc_of_io x), w)
    | Some (StoppedAfterOpen header written x) =>
        (Raise (exc_of_io x),
         after w [EvCsvAbandoned (csv_name E subreddit) header written] 0)
    end.
Proof.
  unfold save_comments_csv, csv_name, write_stop_of.
  destruct (env_write_error E) as [[x|x|bad x|x]|]; cbv zeta;
    try destruct (rows_before_fault bad 0 (csv_rows subreddit results));
    try reflexivity;
    unfold_monad; unfold after; now rewrite Nat.add_0_r.
Qed.

Lemma run_ok_iff (E : env) (subreddit : string) (posts_limit comments_limit depth : Z)
    (sort : string) (polite_delay_ms : N) (sm : summary) (w w' : world) :
  reddit_hot_comments_to_csv E subreddit posts_limit comments_limit depth sort
    polite_delay_ms w = (Ok sm, w') <->
  exists results w1,
    collect_results E subreddit posts_limit comments_limit depth sort
      polite_delay_ms w = (Ok results, w1)
    /\ write_stop_of (env_write_error E) (csv_rows subreddit results) = None
    /\ sm = {| s_subreddit := subreddit;
               posts_processed := length results;
               comments_total_returned := total_comments results;
               csv_saved_to := csv_name E subreddit;
               max_posts_per_hot_request := 100 |}
    /\ w' = after w1 [EvCsvWritten (csv_name E subreddit) fields
                        (csv_rows subreddit results)] 0.
Proof.
  unfold reddit_hot_comments_to_csv. unfold mbind at 1, M_bind.
  destruct (collect_results _ _ _ _ _ _ _ w) as [[results|e] w1].
  - unfold mbind, M_bind. rewrite save_comments_csv_run.
    destruct (write_stop_of _ _) as [[x|header written x]|] eqn:Hstop; split.
    + discriminate.
    + intros (r & w2 & [= <- <-] & Hs & _). rewrite Hs in Hstop. discriminate.
    + discriminate.
    + intros (r & w2 & [= <- <-] & Hs & _). rewrite Hs in Hstop. discriminate.
    + unfold mret, M_ret. intros [= <- <-]. eauto 6.
    + intros (r & w2 & [= <- <-] & _ & -> & ->). reflexivity.
  - split; [discriminate|]. intros (? & ? & ? & _); discriminate.
Qed.

(** ** Rows of the CSV file *)

Lemma csv_rows_app (subreddit : string) (l1 l2 : list item) :
  csv_rows subreddit (l1 ++ l2) = csv_rows subreddit l1 ++ csv_rows subreddit l2.
Proof.
  induction l1 as [|it l1 IH]; simpl; [reflexivity|]. now rewrite IH, app_assoc.
Qed.

Lemma csv_rows_concat (subreddit : string) (results : list item) :
  csv_rows subreddit results =
    concat (map (fun it => map (row_of subreddit (item_post it)) (comments_of it))
              results).
Proof. induction results as [|it l IH]; simpl; [reflexivity|]. now rewrite IH. Qed.

Lemma csv_rows_length (subreddit : string) (results : list item) :
  length (csv_rows subreddit results) = total_comments results.
Proof.
  unfold total_comments.
  induction results as [|it l IH]; simpl; [reflexivity|].
  now rewrite length_app, length_map, IH.
Qed.

(** ** Listing failures (C4) *)




(** ** A failed comment fetch stays local (C1) *)

(** C1: in a run whose listing request succeeded with a non-empty listing,
    when the comment request of one post raises (network error, timeout,
    non-2xx status or JSON parse failure), the exception is caught: the post
    gets an item with the error message and no comments, and the run goes on
    with the loop over the remaining entries of the listing; when those
    produce their items, the run returns one item per listing entry. *)
Theorem comment_fetch_failure_is_local (E : env) (subreddit : string)
    (posts_limit comments_limit depth : Z) (sort : string) (polite_delay_ms : N)
    (posts_json : json) (pre : list json) (child : json) (rest : list json)
    (w0 w : world) (acc : list item) (post : post_info)
    (why : fetch_failure) (err : string) :
  env_listing E subreddit posts_limit = ListingResponse posts_json ->
  listing_children posts_json = Ok (JArr (pre ++ child :: rest)) ->
  for_posts E subreddit comments_limit depth sort polite_delay_ms 1 pre []
    (after w0 [EvListingGet subreddit posts_limit] 0) = (Ok acc, w) ->
  post_of_child (S (length pre)) child = Ok post ->
  env_comments E (fetches w) (request_for subreddit comments_limit depth sort post)
    = CommentsRaise why err ->
  let recorded := error_item post err in
  let w1 :=
    after w (iteration_events subreddit comments_limit depth sort polite_delay_ms post)
      1 in
  status_of recorded = FetchError ("Erro ao buscar comentários: " +:+ err)
  /\ comments_of recorded = []
  /\ collect_results E subreddit posts_limit comments_limit depth sort polite_delay_ms
       w0
     = for_posts E subreddit comments_limit depth sort polite_delay_ms
         (S (S (length pre))) rest (acc ++ [recorded]) w1
  /\ forall new,
       items_match E subreddit comments_limit depth sort (fetches w1)
         (S (S (length pre))) rest new ->
       exists w',
         collect_results E subreddit posts_limit comments_limit depth sort
           polite_delay_ms w0 = (Ok (acc ++ recorded :: new), w')
         /\ length (acc ++ recorded :: new) = length (pre ++ child :: rest).
Proof.
  intros HL Hch Hpre Hp Hrc recorded w1.
  assert (Hrun :
    collect_results E subreddit posts_limit comments_limit depth sort polite_delay_ms
      w0
    = for_posts E subreddit comments_limit depth sort polite_delay_ms
        (S (S (length pre))) rest (acc ++ [recorded]) w1).
  { unfold collect_results. unfold mbind at 1, M_bind, listing_get. rewrite HL.
    unfold mbind at 1, M_bind, lift at 1. rewrite Hch.
    assert (Ht : Py.truthy (JArr (pre ++ child :: rest)) = true).
    { simpl. rewrite length_app. simpl. now rewrite Nat.add_succ_r. }
    rewrite Ht. cbn [negb].
    unfold mbind at 1, M_bind, lift at 1. cbn [Py.iter].
    rewrite for_posts_app.
    replace {| trace := trace w0 ++ [EvListingGet subreddit posts_limit];
               fetches := fetches w0 |}
      with (after w0 [EvListingGet subreddit posts_limit] 0)
      by (unfold after; f_equal; lia).
    rewrite Hpre. simpl for_posts. unfold mbind at 1, M_bind.
    rewrite post_iteration_unfold. simpl Nat.add. rewrite Hp, Hrc. reflexivity. }
  repeat apply conj; try reflexivity; [exact Hrun|].
  intros new Hnew. rewrite Hrun.
  eexists. split.
  - apply for_posts_ok_iff. exists new. split; [now rewrite <- app_assoc|].
    split; [exact Hnew | reflexivity].
  - apply for_posts_ok_iff in Hpre. destruct Hpre as (items & -> & Hm & _).
    apply items_match_length in Hm, Hnew. simpl in *.
    rewrite !length_app. simpl. lia.
Qed.

Lemma comment_fetch_failure_is_local_witness :
  exists acc w results w',
    for_posts Demo.world_env "x" 200 2 "confidence" 250 1 [Demo.post_a] []
      (after initial_world [EvListingGet "x" 5%Z] 0) = (Ok acc, w)
    /\ env_comments Demo.world_env (fetches w)
         (request_for "x" 200 2 "confidence"
            {| post_id := JStr "b"; post_title := JStr "Second";
               post_permalink := "https://www.reddit.com/r/x/comments/b/";
               post_index_in_hot := 2 |})
       = CommentsRaise Timeout "Read timed out."
    /\ Demo.results_of Demo.world_env 5 250 = (Ok results, w')
    /\ map status_of results =
         [StatusOk; FetchError "Erro ao buscar comentários: Read timed out.";
          UnexpectedShape].
Proof.
  eexists. eexists.
  assert (Hpre :
    for_posts Demo.world_env "x" 200 2 "confidence" 250 1 [Demo.post_a] []
      (after initial_world [EvListingGet "x" 5%Z] 0)
    = (Ok [ok_item
             {| post_id := JStr "a"; post_title := JStr "First";
                post_permalink := "https://www.reddit.com/r/x/comments/a/";
                post_index_in_hot := 1 |}
             [ {| c_id := JStr "c1"; c_author := JNull; c_body := JStr "hello";
                  c_score := JInt 7; c_created_utc := JNull; c_parent_id := JNull;
                  c_is_submitter := JNull |};
               {| c_id := JStr "c2"; c_author := JNull; c_body := JStr "world";
                  c_score := JInt 7; c_created_utc := JNull; c_parent_id := JNull;
                  c_is_submitter := JNull |} ]],
        after (after initial_world [EvListingGet "x" 5%Z] 0)
          [EvCommentGet
             (request_for "x" 200 2 "confidence"
                {| post_id := JStr "a"; post_title := JStr "First";
                   post_permalink := "https://www.reddit.com/r/x/comments/a/";
                   post_index_in_hot := 1 |});
           EvSleep 250] 1)) by reflexivity.
  destruct (comment_fetch_failure_is_local Demo.world_env "x" 5 200 2 "confidence" 250
              Demo.listing [Demo.post_a] Demo.post_b [Demo.post_c]
              initial_world _ _ _ Timeout "Read timed out."
              eq_refl eq_refl Hpre eq_refl eq_refl) as (_ & _ & _ & Hall).
  destruct (Hall [unexpected_item
                    {| post_id := JStr "c"; post_title := JNull;
                       post_permalink := "https://www.reddit.com";
                       post_index_in_hot := 3 |}]) as (w' & Hrun & _).
  { simpl. split; [|exact I]. eexists. split; reflexivity. }
  eexists. exists w'. split; [exact Hpre|]. split; [reflexivity|].
  split; [exact Hrun | reflexivity].
Defined.

(** ** One row per comment (C3) *)

(** C3: whatever list of results the writer is given, the file it writes
    holds, after the header, one row per comment of every item, post by post:
    the number of rows is the sum of the lengths of the comment lists (the
    total the summary reports), and an item without comments, such as the
    items of failed or malformed fetches, adds no row. *)
Theorem csv_has_one_row_per_comment (E : env) (subreddit : string)
    (results : list item) (w : world) :
  env_write_error E = None ->
  exists path rows,
    save_comments_csv E subreddit results w
      = (Ok path, after w [EvCsvWritten path fields rows] 0)
    /\ rows = concat (map (fun it =>
                map (row_of subreddit (item_post it)) (comments_of it)) results)
    /\ length rows = list_sum (map (fun it => length (comments_of it)) results)
    /\ length rows = total_comments results
    /\ (forall l1 it l2, results = l1 ++ it :: l2 -> comments_of it = [] ->
          rows = csv_rows subreddit (l1 ++ l2))
    /\ (forall post err,
          csv_rows subreddit [error_item post err] = []
          /\ csv_rows subreddit [unexpected_item post] = []).
Proof.
  intros Hw. exists (csv_name E subreddit), (csv_rows subreddit results).
  rewrite save_comments_csv_run, Hw. split; [reflexivity|].
  split; [apply csv_rows_concat|].
  split; [apply csv_rows_length|]. split; [apply csv_rows_length|]. split.
  - intros l1 it l2 -> Hit. rewrite !csv_rows_app. f_equal.
    simpl. unfold comments_of in Hit. now rewrite Hit.
  - intros post err. split; reflexivity.
Qed.

Lemma csv_has_one_row_per_comment_witness :
  env_write_error Demo.world_env = None
  /\ exists results w path rows,
       Demo.results_of Demo.world_env 5 250 = (Ok results, w)
       /\ save_comments_csv Demo.world_env "x" results w
          = (Ok path, after w [EvCsvWritten path fields rows] 0)
       /\ map (fun it => length (comments_of it)) results = [2; 0; 0]
       /\ length rows = 2.
Proof.
  split; [reflexivity|].
  destruct (Demo.results_of Demo.world_env 5 250) as [r w] eqn:Hr.
  vm_compute in Hr. injection Hr as <- <-.
  eexists. eexists.
  match goal with
  | |- exists path rows, _ = (Ok ?r, ?w) /\ _ =>
      destruct (csv_has_one_row_per_comment Demo.world_env "x" r w eq_refl)
        as (path & rows & Hsave & _ & Hlen & _)
  end.
  exists path, rows. split; [reflexivity|]. split; [exact Hsave|].
  split; [reflexivity | exact Hlen].
Defined.

(** ** Items of a run and listing entries *)

Section RunItems.

Variable E : env.
Variables (subreddit : string) (comments_limit depth : Z) (sort : string)
          (polite_delay_ms : N).

Local Abbreviation matching := (items_match E subreddit comments_limit depth sort).
Local Abbreviation made := (produced E subreddit comments_limit depth sort).

Lemma items_match_In (n idx : nat) (children : list json) (new : list item)
    (it : item) :
  matching n idx children new -> In it new ->
  exists k child,
    new !! k = Some it /\ children !! k = Some child
    /\ made (n + k) (idx + k) child it.
Proof.
  intros Hm Hin. apply list_elem_of_In, list_elem_of_lookup in Hin.
  destruct Hin as [k Hk].
  destruct (items_match_lookup _ _ _ _ _ _ _ _ _ _ _ Hm Hk) as (child & Hc & Hp).
  eauto.
Qed.

Lemma items_match_indexes (n idx : nat) (children : list json) (new : list item) :
  matching n idx children new ->
  map index_of new = map Some (seq idx (length children)).
Proof.
  revert n idx new. induction children as [|c cs IH]; intros n idx [|it its]; simpl;
    try tauto.
  intros [(post & Hp & Hn) Hm]. f_equal; [|eauto].
  unfold index_of. rewrite (new_item_post _ _ _ Hn). simpl.
  now rewrite (post_of_child_index _ _ _ Hp).
Qed.

Lemma produced_status (n idx : nat) (child : json) (it : item) :
  made n idx child it ->
  match status_of it with
  | StatusOk => True
  | FetchError _ | UnexpectedShape => item_comments it = Some []
  end.
Proof.
  intros (post & _ & Hn). apply new_item_cases in Hn.
  destruct Hn as [(why & err & _ & ->)|[(cj & _ & _ & ->)|(cj & ex & _ & _ & _ & ->)]];
    reflexivity.
Qed.

End RunItems.

Lemma append_empty (s : string) : s +:+ "" = s.
Proof.
  induction s as [|a s IH]; [reflexivity|].
  change (String a (s +:+ "") = String a s). now rewrite IH.
Qed.

Lemma post_of_child_permalink (idx : nat) (child : json) (post : post_info) :
  post_of_child idx child = Ok post ->
  match upstream_permalink child with
  | Some (JStr link) => post_permalink post = host +:+ link
  | Some _ => False
  | None => post_permalink post = host
  end.
Proof.
  unfold post_of_child, upstream_permalink. unfold_monad.
  destruct child as [| | | | | |kvs]; simpl; try discriminate.
  destruct (default (JObj []) (Py.lookup_key "data" kvs)) as [| | | | | |d]; simpl;
    try discriminate.
  destruct (Py.lookup_key "permalink" d) as [[| | | |link| |]|]; simpl;
    try discriminate; intros [= <-]; simpl; [reflexivity | apply append_empty].
Qed.

Lemma csv_rows_In (subreddit : string) (results : list item) (row : csv_row) :
  In row (csv_rows subreddit results) ->
  exists it c,
    In it results /\ In c (comments_of it) /\ row = row_of subreddit (item_post it) c.
Proof.
  induction results as [|it l IH]; simpl; [tauto|].
  rewrite in_app_iff, in_map_iff. intros [(c & <- & Hc)|H].
  - exists it, c. auto.
  - destruct (IH H) as (it' & c & Hi & Hc & ->). exists it', c. auto.
Qed.

(** ** Posts processed (C5) *)

(** C5 as stated does not hold: with [limit=1] in the listing request and
    three entries in the answer, three posts are processed; the limit is sent
    upstream, the answer is not truncated. *)
Lemma posts_processed_exceeds_posts_limit :
  exists sm w,
    Demo.run Demo.world_env 1 250 = (Ok sm, w)
    /\ posts_processed sm = 3
    /\ ~ (Z.of_nat (posts_processed sm) <= 1)%Z.
Proof.
  eexists. eexists. split; [vm_compute; reflexivity|].
  split; [reflexivity|]. simpl. lia.
Qed.

(** C5, as the code has it: in a run with a non-empty listing,
    [posts_processed] is the number of entries of the listing response,
    whatever [posts_limit] is; and such a run does return its summary when
    every entry and every comment answer has the expected types and the file
    can be written. *)
Theorem posts_processed_counts_listing_entries (E : env) (subreddit : string)
    (posts_limit comments_limit depth : Z) (sort : string) (polite_delay_ms : N)
    (w : world) (posts_json : json) (entries : list json) :
  env_listing E subreddit posts_limit = ListingResponse posts_json ->
  listing_children posts_json = Ok (JArr entries) ->
  entries <> [] ->
  (forall sm w',
     reddit_hot_comments_to_csv E subreddit posts_limit comments_limit depth sort
       polite_delay_ms w = (Ok sm, w') ->
     posts_processed sm = length entries)
  /\ (Forall (fun c => entry_ok c = true) entries ->
      (forall m req, answer_ok (env_comments E m req) = true) ->
      env_write_error E = None ->
      exists sm w',
        reddit_hot_comments_to_csv E subreddit posts_limit comments_limit depth sort
          polite_delay_ms w = (Ok sm, w')
        /\ posts_processed sm = length entries).
Proof.
  intros HL Hch Hne. split.
  - intros sm w' Hrun. apply run_ok_iff in Hrun.
    destruct Hrun as (results & w1 & Hc & _ & -> & _). simpl.
    apply collect_results_ok_iff in Hc.
    destruct Hc as (pj & entries' & HL' & Hch' & _ & Hm & _).
    rewrite HL in HL'. injection HL' as <-.
    rewrite Hch in Hch'. injection Hch' as <-.
    eapply items_match_length, Hm.
  - intros Hok Hans Hw.
    destruct (items_match_total E subreddit comments_limit depth sort entries
                (fetches w) 1 Hok Hans) as [new Hnew].
    do 2 eexists. split.
    + apply run_ok_iff. exists new. eexists.
      split; [|split; [rewrite Hw; reflexivity | eauto]].
      apply collect_results_ok_iff. exists posts_json, entries. eauto 6.
    + simpl. eapply items_match_length, Hnew.
Qed.

Lemma posts_processed_counts_listing_entries_witness :
  env_listing Demo.world_env "x" 1%Z = ListingResponse Demo.listing
  /\ listing_children Demo.listing
     = Ok (JArr [Demo.post_a; Demo.post_b; Demo.post_c])
  /\ exists sm w',
       Demo.run Demo.world_env 1 250 = (Ok sm, w') /\ posts_processed sm = 3.
Proof.
  split; [reflexivity|]. split; [reflexivity|].
  destruct (posts_processed_counts_listing_entries Demo.world_env "x" 1 200 2
              "confidence" 250 initial_world Demo.listing
              [Demo.post_a; Demo.post_b; Demo.post_c] eq_refl eq_refl)
    as [_ Htotal]; [discriminate|].
  destruct Htotal as (sm & w' & Hrun & Hn).
  - repeat constructor.
  - intros [|[|[|m]]] req; reflexivity.
  - reflexivity.
  - exists sm, w'. split; [exact Hrun | exact Hn].
Defined.

(** ** Failed and malformed fetches carry no comments (C6) *)

(** C6: in the results of a run, an item whose status is a fetch error or an
    unexpected shape has an empty list of comments. *)
Theorem failed_items_have_no_comments (E : env) (subreddit : string)
    (posts_limit comments_limit depth : Z) (sort : string) (polite_delay_ms : N)
    (w w' : world) (results : list item) :
  collect_results E subreddit posts_limit comments_limit depth sort polite_delay_ms w
    = (Ok results, w') ->
  forall it, In it results ->
    status_of it = UnexpectedShape \/ (exists message, status_of it = FetchError message) ->
    item_comments it = Some [] /\ comments_of it = [].
Proof.
  intros Hc it Hin Hst. apply collect_results_ok_iff in Hc.
  destruct Hc as (pj & entries & _ & _ & _ & Hm & _).
  destruct (items_match_In _ _ _ _ _ _ _ _ _ _ Hm Hin) as (k & child & _ & _ & Hp).
  apply produced_status in Hp. unfold comments_of.
  destruct Hst as [Hs|[m Hs]]; rewrite Hs in Hp; now rewrite Hp.
Qed.

Lemma failed_items_have_no_comments_witness :
  exists results w' it_err it_bad,
    Demo.results_of Demo.world_env 5 250 = (Ok results, w')
    /\ results !! 1 = Some it_err /\ results !! 2 = Some it_bad
    /\ status_of it_err = FetchError "Erro ao buscar comentários: Read timed out."
    /\ status_of it_bad = UnexpectedShape
    /\ item_comments it_err = Some [] /\ item_comments it_bad = Some [].
Proof.
  destruct (Demo.results_of Demo.world_env 5 250) as [r w'] eqn:Hr.
  pose proof Hr as Hrun. vm_compute in Hr. injection Hr as <- <-.
  eexists. eexists. eexists. eexists.
  split; [reflexivity|]. split; [reflexivity|]. split; [reflexivity|].
  split; [reflexivity|]. split; [reflexivity|].
  split.
  - eapply (failed_items_have_no_comments _ _ _ _ _ _ _ _ _ _ Hrun).
    + right; left; reflexivity.
    + right. eexists. reflexivity.
  - eapply (failed_items_have_no_comments _ _ _ _ _ _ _ _ _ _ Hrun).
    + right; right; left; reflexivity.
    + left. reflexivity.
Defined.

(** ** Ranks (C7) *)

(** C7: the results of a run are the listing entries, one item per entry in
    the order of the listing; the ranks stored in the items are 1, 2, ...,
    without gaps; and the items recorded after a first part of the listing
    are the first items of the final results, unchanged by later
    iterations. *)
Theorem index_in_listing_is_rank (E : env) (subreddit : string)
    (posts_limit comments_limit depth : Z) (sort : string) (polite_delay_ms : N)
    (w w' : world) (results : list item) :
  collect_results E subreddit posts_limit comments_limit depth sort polite_delay_ms w
    = (Ok results, w') ->
  exists posts_json entries,
    env_listing E subreddit posts_limit = ListingResponse posts_json
    /\ listing_children posts_json = Ok (JArr entries)
    /\ length results = length entries
    /\ map index_of results = map Some (seq 1 (length results))
    /\ (forall k it, results !! k = Some it ->
          exists child post,
            entries !! k = Some child
            /\ post_of_child (S k) child = Ok post
            /\ item_post it = Some post
            /\ post_index_in_hot post = S k)
    /\ (forall pre rest, entries = pre ++ rest ->
          exists w1,
            for_posts E subreddit comments_limit depth sort polite_delay_ms 1 pre []
              (after w [EvListingGet subreddit posts_limit] 0)
            = (Ok (take (length pre) results), w1)
            /\ for_posts E subreddit comments_limit depth sort polite_delay_ms
                 (S (length pre)) rest (take (length pre) results) w1
               = (Ok results, w')).
Proof.
  intros Hc. apply collect_results_ok_iff in Hc.
  destruct Hc as (pj & entries & HL & Hch & Hne & Hm & Hw).
  pose proof (items_match_length _ _ _ _ _ _ _ _ _ Hm) as Hlen.
  exists pj, entries. repeat apply conj; try assumption.
  - rewrite Hlen. eapply items_match_indexes, Hm.
  - intros k it Hk.
    destruct (items_match_lookup _ _ _ _ _ _ _ _ _ _ _ Hm Hk)
      as (child & Hchild & post & Hp & Hn).
    exists child, post. simpl in Hp. repeat apply conj; try assumption.
    + eapply new_item_post, Hn.
    + eapply post_of_child_index, Hp.
  - intros pre rest ->.
    assert (Hloop :
      for_posts E subreddit comments_limit depth sort polite_delay_ms 1 (pre ++ rest)
        [] (after w [EvListingGet subreddit posts_limit] 0) = (Ok results, w')).
    { apply for_posts_ok_iff. exists results. split; [reflexivity|]. split.
      - simpl. now rewrite Nat.add_0_r.
      - rewrite Hw, after_after. reflexivity. }
    rewrite for_posts_app in Hloop.
    destruct (for_posts _ _ _ _ _ _ 1 pre [] _) as [[acc|e] w1] eqn:Hpre;
      [|discriminate].
    pose proof Hloop as Hrest.
    apply for_posts_ok_iff in Hrest. destruct Hrest as (new & -> & _ & _).
    pose proof Hpre as Hitems.
    apply for_posts_ok_iff in Hitems. destruct Hitems as (items & Hacc & Hmp & _).
    simpl in Hacc. subst acc.
    apply items_match_length in Hmp.
    rewrite <- Hmp, take_app_length. exists w1. split; [reflexivity|].
    rewrite Hmp. exact Hloop.
Qed.

Lemma index_in_listing_is_rank_witness :
  exists results w',
    Demo.results_of Demo.world_env 5 0 = (Ok results, w')
    /\ map index_of results = [Some 1; Some 2; Some 3]
    /\ map (fun it => post_id <$> item_post it) results
       = [Some (JStr "a"); Some (JStr "b"); Some (JStr "c")].
Proof.
  destruct (Demo.results_of Demo.world_env 5 0) as [r w'] eqn:Hr.
  pose proof Hr as Hrun. vm_compute in Hr. injection Hr as <- <-.
  destruct (index_in_listing_is_rank _ _ _ _ _ _ _ _ _ _ Hrun)
    as (pj & entries & _ & _ & _ & Hidx & _).
  eexists. eexists. split; [reflexivity|]. split; [exact Hidx | reflexivity].
Defined.

(** ** Permalinks (C10) *)

(** The row of the [j]-th comment of the [k]-th item comes after the rows of
    the items before it. *)
Lemma csv_rows_lookup (subreddit : string) (results : list item) (k j : nat)
    (it : item) (c : comment) :
  results !! k = Some it ->
  comments_of it !! j = Some c ->
  csv_rows subreddit results !! (total_comments (take k results) + j)
    = Some (row_of subreddit (item_post it) c).
Proof.
  intros Hk Hj.
  assert (Hsplit : csv_rows subreddit results
                   = csv_rows subreddit (take k results)
                     ++ csv_rows subreddit (it :: drop (S k) results)).
  { rewrite <- csv_rows_app. now rewrite (take_drop_middle results k it Hk). }
  rewrite Hsplit, <- (csv_rows_length subreddit (take k results)).
  rewrite lookup_app_r by lia.
  replace (length (csv_rows subreddit (take k results)) + j
           - length (csv_rows subreddit (take k results))) with j by lia.
  simpl. rewrite lookup_app_l.
  - rewrite list_lookup_fmap. unfold comments_of in Hj. now rewrite Hj.
  - rewrite length_map. apply lookup_lt_Some in Hj. exact Hj.
Qed.

(** C10: for every item of a run, the permalink stored in its post is the
    host prefix followed by the [permalink] str of the listing entry, and the
    bare host prefix when the entry has no [permalink]; every row written for
    the post carries that str in [post_permalink], never a null: the row
    written for the [j]-th comment of the [k]-th post, which comes after the
    rows of the posts before it, carries the rank, the id and the permalink
    of that very post next to the id of that comment; there are no other
    rows, and these are the rows of the file when it can be written. *)
Theorem permalink_is_host_plus_upstream (E : env) (subreddit : string)
    (posts_limit comments_limit depth : Z) (sort : string) (polite_delay_ms : N)
    (w w' : world) (results : list item) :
  collect_results E subreddit posts_limit comments_limit depth sort polite_delay_ms w
    = (Ok results, w') ->
  exists posts_json entries,
    env_listing E subreddit posts_limit = ListingResponse posts_json
    /\ listing_children posts_json = Ok (JArr entries)
    /\ (forall k it, results !! k = Some it ->
          exists child post,
            entries !! k = Some child
            /\ item_post it = Some post
            /\ match upstream_permalink child with
               | Some (JStr link) =>
                   post_permalink post = "https://www.reddit.com" +:+ link
               | Some _ => False
               | None => post_permalink post = "https://www.reddit.com"
               end)
    /\ (forall row, In row (csv_rows subreddit results) ->
          exists it post,
            In it results /\ item_post it = Some post
            /\ row_post_permalink row = JStr (post_permalink post))
    /\ (forall k it post j c,
          results !! k = Some it -> item_post it = Some post ->
          comments_of it !! j = Some c ->
          exists row,
            csv_rows subreddit results !! (total_comments (take k results) + j)
              = Some row
            /\ row_post_permalink row = JStr (post_permalink post)
            /\ row_post_index_in_hot row = JInt (Z.of_nat (S k))
            /\ row_post_id row = post_id post
            /\ row_comment_id row = c_id c)
    /\ length (csv_rows subreddit results) = total_comments results
    /\ (env_write_error E = None ->
        exists sm,
          reddit_hot_comments_to_csv E subreddit posts_limit comments_limit depth
            sort polite_delay_ms w
          = (Ok sm,
             after w' [EvCsvWritten (csv_saved_to sm) fields
                         (csv_rows subreddit results)] 0)).
Proof.
  intros Hc. pose proof Hc as Hrun. apply collect_results_ok_iff in Hc.
  destruct Hc as (pj & entries & HL & Hch & _ & Hm & _).
  exists pj, entries. repeat apply conj; try assumption.
  - intros k it Hk.
    destruct (items_match_lookup _ _ _ _ _ _ _ _ _ _ _ Hm Hk)
      as (child & Hchild & post & Hp & Hn).
    exists child, post. repeat apply conj; try assumption.
    + eapply new_item_post, Hn.
    + apply (post_of_child_permalink _ _ _ Hp).
  - intros row Hrow. apply csv_rows_In in Hrow.
    destruct Hrow as (it & c & Hin & _ & ->).
    destruct (items_match_In _ _ _ _ _ _ _ _ _ _ Hm Hin)
      as (k & child & _ & _ & post & _ & Hn).
    exists it, post. apply new_item_post in Hn. rewrite Hn. auto.
  - intros k it post j c Hk Hpost Hj.
    destruct (items_match_lookup _ _ _ _ _ _ _ _ _ _ _ Hm Hk)
      as (child & _ & post' & Hp & Hn).
    apply new_item_post in Hn. rewrite Hn in Hpost. injection Hpost as ->.
    apply post_of_child_index in Hp.
    exists (row_of subreddit (item_post it) c).
    split; [apply (csv_rows_lookup _ _ _ _ _ _ Hk Hj)|].
    rewrite Hn. simpl. rewrite Hp. auto.
  - apply csv_rows_length.
  - intros Hw. eexists. rewrite run_ok_iff. exists results, w'.
    split; [exact Hrun|]. split; [rewrite Hw; reflexivity|].
    split; reflexivity.
Qed.

Lemma permalink_is_host_plus_upstream_witness :
  exists results w',
    Demo.results_of Demo.world_env 5 250 = (Ok results, w')
    /\ map (fun it => post_permalink <$> item_post it) results
       = [Some "https://www.reddit.com/r/x/comments/a/";
          Some "https://www.reddit.com/r/x/comments/b/";
          Some "https://www.reddit.com"]
    /\ upstream_permalink Demo.post_c = None
    /\ (forall row, In row (csv_rows "x" results) ->
         exists it post,
           In it results /\ item_post it = Some post
           /\ row_post_permalink row = JStr (post_permalink post))
    /\ exists row,
         csv_rows "x" results !! 1 = Some row
         /\ row_post_permalink row = JStr "https://www.reddit.com/r/x/comments/a/"
         /\ row_post_index_in_hot row = JInt 1
         /\ row_comment_id row = JStr "c2".
Proof.
  destruct (Demo.results_of Demo.world_env 5 250) as [r w'] eqn:Hr.
  pose proof Hr as Hrun. vm_compute in Hr. injection Hr as <- <-.
  destruct (permalink_is_host_plus_upstream _ _ _ _ _ _ _ _ _ _ Hrun)
    as (pj & entries & _ & _ & _ & Hrows & Hat & _).
  eexists. eexists. split; [reflexivity|]. split; [reflexivity|].
  split; [reflexivity|]. split; [exact Hrows|].
  match type of Hrun with
  | _ = (Ok (?it :: _), _) =>
      destruct (Hat 0 it _ 1 _ eq_refl eq_refl eq_refl)
        as (row & Hrow & Hlink & Hrank & _ & Hcid)
  end.
  exists row. split; [exact Hrow|]. split; [exact Hlink|].
  split; [exact Hrank | exact Hcid].
Defined.

(** ** The pause between requests (C8) *)

Lemma loop_events_without_delay (subreddit : string) (comments_limit depth : Z)
    (sort : string) (new : list item) :
  forallb (fun ev => negb (is_sleep ev))
    (loop_events subreddit comments_limit depth sort 0 new) = true.
Proof.
  induction new as [|it new IH]; simpl; [reflexivity|].
  rewrite forallb_app, IH, andb_true_r. now destruct (item_post it).
Qed.

(** C8: an iteration that ends in one of its three outcomes (comments
    fetched, fetch error, unexpected shape) with a positive
    [polite_delay_ms] issues the comment request and then pauses for that
    delay, whatever the outcome; with a delay of 0 it issues the request and
    does not pause, no pause occurs anywhere in the run, and the items and
    the rows written still follow the order of the listing. *)
Theorem delay_follows_every_iteration (E : env) (subreddit : string)
    (comments_limit depth : Z) (sort : string) (polite_delay_ms : N)
    (idx : nat) (child : json) (results : list item) (w : world)
    (post : post_info) (it : item) :
  post_of_child idx child = Ok post ->
  new_item post
    (env_comments E (fetches w) (request_for subreddit comments_limit depth sort post))
    = Ok it ->
  let req := request_for subreddit comments_limit depth sort post in
  ((0 < polite_delay_ms)%N ->
     post_iteration E subreddit comments_limit depth sort polite_delay_ms idx child
       results w
     = (Ok (results ++ [it]), after w [EvCommentGet req; EvSleep polite_delay_ms] 1))
  /\ (polite_delay_ms = 0%N ->
        post_iteration E subreddit comments_limit depth sort polite_delay_ms idx child
          results w
        = (Ok (results ++ [it]), after w [EvCommentGet req] 1))
  /\ (forall posts_limit w0 w' sm,
        reddit_hot_comments_to_csv E subreddit posts_limit comments_limit depth sort 0
          w0 = (Ok sm, w') ->
        exists all events rows,
          collect_results E subreddit posts_limit comments_limit depth sort 0 w0
            = (Ok all, after w0 events (length all))
          /\ forallb (fun ev => negb (is_sleep ev)) events = true
          /\ trace w' = trace w0 ++ events ++ [EvCsvWritten (csv_saved_to sm) fields rows]
          /\ map index_of all = map Some (seq 1 (length all))
          /\ rows = concat (map (fun x =>
                      map (row_of subreddit (item_post x)) (comments_of x)) all)).
Proof.
  intros Hp Hn req. repeat apply conj.
  - intros Hpos. rewrite post_iteration_unfold, Hp, Hn.
    unfold iteration_events, sleep_events.
    destruct (N.eqb_spec polite_delay_ms 0) as [->|_]; [lia | reflexivity].
  - intros ->. rewrite post_iteration_unfold, Hp, Hn. reflexivity.
  - intros posts_limit w0 w' sm Hrun. apply run_ok_iff in Hrun.
    destruct Hrun as (all & w1 & Hc & _ & -> & ->).
    pose proof Hc as Hc'. apply collect_results_ok_iff in Hc'.
    destruct Hc' as (pj & entries & _ & _ & _ & Hm & ->).
    pose proof (items_match_length _ _ _ _ _ _ _ _ _ Hm) as Hlen.
    exists all. eexists. eexists. split; [rewrite Hlen; exact Hc|].
    split; [apply loop_events_without_delay with (new := all)|].
    split; [simpl; now rewrite <- app_assoc|].
    split; [rewrite Hlen; eapply items_match_indexes, Hm | apply csv_rows_concat].
Qed.

Lemma delay_follows_every_iteration_witness :
  post_of_child 2 Demo.post_b
    = Ok {| post_id := JStr "b"; post_title := JStr "Second";
            post_permalink := "https://www.reddit.com/r/x/comments/b/";
            post_index_in_hot := 2 |}
  /\ exists it w,
       status_of it = FetchError "Erro ao buscar comentários: Read timed out."
       /\ fetches w = 1
       /\ post_iteration Demo.world_env "x" 200 2 "confidence" 250 2 Demo.post_b [] w
          = (Ok [it],
             after w [EvCommentGet {| req_subreddit := "x"; req_post_id := JStr "b";
                                      req_limit := 200; req_depth := 2;
                                      req_sort := "confidence" |};
                      EvSleep 250] 1).
Proof.
  split; [reflexivity|].
  exists (error_item {| post_id := JStr "b"; post_title := JStr "Second";
                        post_permalink := "https://www.reddit.com/r/x/comments/b/";
                        post_index_in_hot := 2 |} "Read timed out.").
  exists {| trace := []; fetches := 1 |}.
  split; [reflexivity|]. split; [reflexivity|].
  apply (delay_follows_every_iteration Demo.world_env "x" 200 2 "confidence" 250 2
           Demo.post_b [] {| trace := []; fetches := 1 |} _ _ eq_refl eq_refl).
  reflexivity.
Defined.

(** ** The flattener on answers of the expected shape (C2) *)

Lemma extract_one_ok (c : json) :
  node_ok c = true ->
  extract_one c = Ok (if is_comment_node c then Some (comment_of_node c) else None).
Proof.
  destruct c as [| | | | | |kvs]; try discriminate.
  unfold node_ok, extract_one, is_comment_node, comment_of_node, node_field, node_data.
  unfold_monad. cbn [Py.get].
  destruct (Py.eq_str (default JNull (Py.lookup_key "kind" kvs)) "t1");
    cbn [negb]; [|reflexivity].
  intros H. apply bool_decide_eq_true in H.
  destruct (default (JObj []) (Py.lookup_key "data" kvs)) as [| | | | | |d];
    try (destruct H; discriminate).
  reflexivity.
Qed.

Lemma extract_loop_ok (cs : list json) (extracted : list comment) :
  forallb node_ok cs = true ->
  extract_loop cs extracted =
    Ok (extracted ++ map comment_of_node (List.filter is_comment_node cs)).
Proof.
  revert extracted. induction cs as [|c cs IH]; intros extracted; simpl.
  - now rewrite app_nil_r.
  - intros H. apply andb_true_iff in H. destruct H as [Hc Hcs].
    rewrite (extract_one_ok c Hc). unfold mbind, result_bind.
    destruct (is_comment_node c); simpl.
    + rewrite (IH _ Hcs). now rewrite <- app_assoc.
    + apply (IH _ Hcs).
Qed.

Lemma unexpected_shape_false_iff (comments_json : json) :
  unexpected_shape comments_json = false <->
  exists first second more, comments_json = JArr (first :: second :: more).
Proof.
  split.
  - destruct comments_json as [| | | | |[|a [|b l]]|]; simpl; try discriminate.
    eauto.
  - now intros (a & b & l & ->).
Qed.

(** C2 as stated does not hold for every answer of two elements or more:
    when a comment node carries a null [data], or when the second element is
    not an object, the extraction raises [AttributeError], which nothing
    catches, and the run ends with it. *)
Lemma flattener_raises_on_null_data :
  unexpected_shape null_data_answer = false
  /\ extract_comments null_data_answer = Raise AttributeError
  /\ unexpected_shape (JArr [JNull; JNull]) = false
  /\ extract_comments (JArr [JNull; JNull]) = Raise AttributeError
  /\ (forall post, new_item post (CommentsJson null_data_answer) = Raise AttributeError)
  /\ fst (Demo.run null_data_env 5 250) = Raise AttributeError.
Proof. repeat split. Qed.

(** C2, as the code has it: an answer that is not a list of at least two
    elements gives the unexpected-shape item, with no comments.  For an
    answer whose second element is an object holding (under [data], then
    [children], each optional) a list of objects, the comment nodes among
    which have an object or nothing as [data], the item holds exactly the
    nodes of kind [t1], in upstream order, each with its seven fields read
    from its [data], a missing field being null. *)
Theorem flattener_on_expected_shape (post : post_info) (comments_json : json)
    (children : list json) :
  forest_of comments_json = Some children ->
  forallb node_ok children = true ->
  unexpected_shape comments_json = false
  /\ extract_comments comments_json
     = Ok (map comment_of_node (List.filter is_comment_node children))
  /\ new_item post (CommentsJson comments_json)
     = Ok (ok_item post (map comment_of_node (List.filter is_comment_node children)))
  /\ (forall c k, node_data c ≫= Py.lookup_key k = None -> node_field c k = JNull)
  /\ (forall other,
        unexpected_shape other = true ->
        new_item post (CommentsJson other) = Ok (unexpected_item post)
        /\ status_of (unexpected_item post) = UnexpectedShape
        /\ comments_of (unexpected_item post) = [])
  /\ (forall other,
        unexpected_shape other = true <->
        ~ exists first second more, other = JArr (first :: second :: more)).
Proof.
  intros Hf Hok.
  assert (Hs : unexpected_shape comments_json = false).
  { destruct comments_json as [| | | | |[|a [|b l]]|]; try discriminate. reflexivity. }
  assert (He : extract_comments comments_json
               = Ok (map comment_of_node (List.filter is_comment_node children))).
  { destruct comments_json as [| | | | |[|a [|b l]]|]; try discriminate.
    destruct b as [| | | | | |kvs]; try discriminate.
    unfold extract_comments, comments_children. simpl in *. unfold_monad.
    destruct (default (JObj []) (Py.lookup_key "data" kvs)) as [| | | | | |d];
      try discriminate. simpl.
    destruct (default (JArr []) (Py.lookup_key "children" d)) as [| | | | |cs|];
      try discriminate. injection Hf as ->. simpl.
    now rewrite (extract_loop_ok children [] Hok). }
  repeat apply conj; try assumption.
  - simpl. now rewrite Hs, He.
  - intros c k Hk. unfold node_field. now rewrite Hk.
  - intros other Ho. simpl. rewrite Ho. repeat split.
  - intros other. split.
    + intros Ho [first [second [more ->]]]. discriminate.
    + intros Hno. destruct (unexpected_shape other) eqn:Ho; [reflexivity|].
      apply unexpected_shape_false_iff in Ho. contradiction.
Qed.

Lemma flattener_on_expected_shape_witness :
  forest_of Demo.comments = Some Demo.forest
  /\ forallb node_ok Demo.forest = true
  /\ map (fun c => (c_id c, c_body c, c_author c))
       (map comment_of_node (List.filter is_comment_node Demo.forest))
     = [(JStr "c1", JStr "hello", JNull); (JStr "c2", JStr "world", JNull)]
  /\ extract_comments Demo.comments
     = Ok (map comment_of_node (List.filter is_comment_node Demo.forest)).
Proof.
  split; [reflexivity|]. split; [reflexivity|]. split; [reflexivity|].
  apply (flattener_on_expected_shape
           {| post_id := JNull; post_title := JNull; post_permalink := "";
              post_index_in_hot := 1 |} Demo.comments Demo.forest);
    reflexivity.
Defined.

(** ** The flattener is a function of the answer alone (C9) *)

(** C9: the comments an iteration records depend on the answer of the
    comment endpoint only.  Two iterations, in any two runs, for any two
    posts, at any rank, with any results accumulated so far and any earlier
    effects, record the same ordered comments (or raise the same exception)
    when they receive the same answer. *)
Theorem flattening_depends_only_on_answer
    (E1 E2 : env) (subreddit1 subreddit2 : string)
    (comments_limit1 comments_limit2 depth1 depth2 : Z) (sort1 sort2 : string)
    (polite_delay_ms1 polite_delay_ms2 : N) (idx1 idx2 : nat) (child1 child2 : json)
    (results1 results2 : list item) (w1 w2 : world) (post1 post2 : post_info)
    (comments_json : json) :
  post_of_child idx1 child1 = Ok post1 ->
  post_of_child idx2 child2 = Ok post2 ->
  env_comments E1 (fetches w1)
    (request_for subreddit1 comments_limit1 depth1 sort1 post1)
    = CommentsJson comments_json ->
  env_comments E2 (fetches w2)
    (request_for subreddit2 comments_limit2 depth2 sort2 post2)
    = CommentsJson comments_json ->
  let first_run :=
    post_iteration E1 subreddit1 comments_limit1 depth1 sort1 polite_delay_ms1
      idx1 child1 results1 w1 in
  let second_run :=
    post_iteration E2 subreddit2 comments_limit2 depth2 sort2 polite_delay_ms2
      idx2 child2 results2 w2 in
  recorded_comments first_run = recorded_comments second_run
  /\ recorded_comments first_run =
       match flatten comments_json with
       | Ok cs => Ok (Some cs)
       | Raise e => Raise e
       end.
Proof.
  intros Hp1 Hp2 Hrc1 Hrc2 first_run second_run.
  assert (H : forall E sub cl d s delay idx child results w post,
    post_of_child idx child = Ok post ->
    env_comments E (fetches w) (request_for sub cl d s post)
      = CommentsJson comments_json ->
    recorded_comments (post_iteration E sub cl d s delay idx child results w) =
      match flatten comments_json with
      | Ok cs => Ok (Some cs)
      | Raise e => Raise e
      end).
  { intros E sub cl d s delay idx child results w post Hp Hrc.
    rewrite post_iteration_unfold, Hp, Hrc. unfold flatten. simpl.
    destruct (unexpected_shape comments_json).
    - unfold recorded_comments. simpl. now rewrite last_snoc.
    - destruct (extract_comments comments_json); [|reflexivity].
      unfold recorded_comments. simpl. now rewrite last_snoc. }
  unfold first_run, second_run.
  rewrite (H _ _ _ _ _ _ _ _ _ _ _ Hp1 Hrc1), (H _ _ _ _ _ _ _ _ _ _ _ Hp2 Hrc2).
  split; reflexivity.
Qed.

Lemma flattening_depends_only_on_answer_witness :
  exists cs,
    flatten Demo.comments = Ok cs
    /\ map c_id cs = [JStr "c1"; JStr "c2"]
    /\ recorded_comments
         (post_iteration Demo.world_env "x" 200 2 "confidence" 250 1 Demo.post_a []
            initial_world)
       = Ok (Some cs)
    /\ recorded_comments
         (post_iteration Demo.unavailable_env "y" 10 1 "top" 0 7 Demo.post_c
            [unexpected_item {| post_id := JNull; post_title := JNull;
                                post_permalink := ""; post_index_in_hot := 6 |}]
            {| trace := [EvSleep 3]; fetches := 4 |})
       = Ok (Some cs).
Proof.
  eexists. split; [reflexivity|]. split; [reflexivity|].
  destruct (flattening_depends_only_on_answer
              Demo.world_env Demo.unavailable_env "x" "y" 200 10 2 1 "confidence" "top"
              250 0 1 7 Demo.post_a Demo.post_c []
              [unexpected_item {| post_id := JNull; post_title := JNull;
                                  post_permalink := ""; post_index_in_hot := 6 |}]
              initial_world {| trace := [EvSleep 3]; fetches := 4 |}
              _ _ Demo.comments eq_refl eq_refl eq_refl eq_refl) as [Hsame Hfirst].
  split; [exact Hfirst|]. rewrite <- Hsame. exact Hfirst.
Defined.

(** * Further properties of the program *)

(** ** Closed forms of the two stages *)

Lemma collect_results_unfold (E : env) (subreddit : string)
    (posts_limit comments_limit depth : Z) (sort : string) (polite_delay_ms : N)
    (w : world) :
  collect_results E subreddit posts_limit comments_limit depth sort polite_delay_ms w =
    let w1 := after w [EvListingGet subreddit posts_limit] 0 in
    match env_listing E subreddit posts_limit with
    | ListingGetHTTPError err =>
        (Raise (HTTPException 500 ("Erro HTTP ao listar posts: " +:+ err)), w1)
    | ListingStatusError code err =>
        (Raise (HTTPException code ("Erro HTTP ao listar posts: " +:+ err)), w1)
    | ListingOtherError err =>
        (Raise (HTTPException 500 ("Erro ao listar posts: " +:+ err)), w1)
    | ListingBadJson err => (Raise (JSONDecodeError err), w1)
    | ListingResponse posts_json =>
        match listing_children posts_json with
        | Raise e => (Raise e, w1)
        | Ok children =>
            if Py.truthy children then
              match Py.iter children with
              | Raise e => (Raise e, w1)
              | Ok entries =>
                  for_posts E subreddit comments_limit depth sort polite_delay_ms 1
                    entries [] w1
              end
            else
              (Raise (HTTPException 404 "Nenhum post encontrado nesse subreddit."), w1)
        end
    end.
Proof.
  unfold collect_results. unfold mbind at 1, M_bind, listing_get.
  replace {| trace := trace w ++ [EvListingGet subreddit posts_limit];
             fetches := fetches w |}
    with (after w [EvListingGet subreddit posts_limit] 0)
    by (unfold after; f_equal; lia).
  cbv zeta.
  destruct (env_listing E subreddit posts_limit) as [err|code err|err|err|pj];
    try reflexivity.
  unfold mbind at 1, M_bind, lift at 1.
  destruct (listing_children pj) as [children|e]; [|reflexivity].
  destruct (Py.truthy children); cbn [negb]; [|reflexivity].
  unfold mbind at 1, M_bind, lift at 1.
  destruct (Py.iter children); reflexivity.
Qed.

Lemma run_unfold (E : env) (subreddit : string)
    (posts_limit comments_limit depth : Z) (sort : string) (polite_delay_ms : N)
    (w : world) :
  reddit_hot_comments_to_csv E subreddit posts_limit comments_limit depth sort
    polite_delay_ms w =
    match collect_results E subreddit posts_limit comments_limit depth sort
            polite_delay_ms w with
    | (Raise e, w1) => (Raise e, w1)
    | (Ok results, w1) =>
        match write_stop_of (env_write_error E) (csv_rows subreddit results) with
        | None =>
            (Ok {| s_subreddit := subreddit;
                   posts_processed := length results;
                   comments_total_returned := total_comments results;
                   csv_saved_to := csv_name E subreddit;
                   max_posts_per_hot_request := 100 |},
             after w1 [EvCsvWritten (csv_name E subreddit) fields
                         (csv_rows subreddit results)] 0)
        | Some (StoppedAtOpen x) => (Raise (exc_of_io x), w1)
        | Some (StoppedAfterOpen header written x) =>
            (Raise (exc_of_io x),
             after w1 [EvCsvAbandoned (csv_name E subreddit) header written] 0)
        end
    end.
Proof.
  unfold reddit_hot_comments_to_csv. unfold mbind at 1, M_bind.
  destruct (collect_results _ _ _ _ _ _ _ w) as [[results|e] w1]; [|reflexivity].
  unfold mbind, M_bind. rewrite save_comments_csv_run.
  destruct (write_stop_of _ _) as [[x|header written x]|]; reflexivity.
Qed.

(** ** What the loop can raise and what it can do *)

Definition is_loop_event (ev : event) : bool := is_comment_get ev || is_sleep ev.








(** ** Effects of the completed iterations *)

Lemma post_of_child_fields (idx : nat) (child : json) (post : post_info) :
  post_of_child idx child = Ok post ->
  post_id post = node_field child "id" /\ post_title post = node_field child "title".
Proof.
  unfold post_of_child, node_field, node_data. unfold_monad.
  destruct child as [| | | | | |kvs]; simpl; try discriminate.
  destruct (default (JObj []) (Py.lookup_key "data" kvs)) as [| | | | | |d]; simpl;
    try discriminate.
  destruct (Py.str_add host _); [|discriminate]. now intros [= <-].
Qed.


Lemma comment_requests_app (l1 l2 : list event) :
  comment_requests (l1 ++ l2) = comment_requests l1 ++ comment_requests l2.
Proof.
  induction l1 as [|ev l1 IH]; simpl; [reflexivity|].
  destruct ev; simpl; now rewrite IH.
Qed.


Lemma loop_events_facts (E : env) (subreddit : string) (comments_limit depth : Z)
    (sort : string) (polite_delay_ms : N) (children : list json) (n idx : nat)
    (new : list item) :
  items_match E subreddit comments_limit depth sort n idx children new ->
  let evs := loop_events subreddit comments_limit depth sort polite_delay_ms new in
  count_events is_comment_get evs = length children
  /\ count_events is_sleep evs
     = (if (polite_delay_ms =? 0)%N then 0 else length children)
  /\ forallb is_loop_event evs = true
  /\ comment_requests evs
     = map (request_of_entry subreddit comments_limit depth sort) children.
Proof.
  revert n idx new. induction children as [|c cs IH]; intros n idx [|it its]; simpl;
    try tauto.
  - repeat split. now destruct (polite_delay_ms =? 0)%N.
  - intros [(post & Hp & Hn) Hm].
    destruct (IH _ _ _ Hm) as (Hc & Hs & Hall & Hreq).
    rewrite (new_item_post _ _ _ Hn). simpl.
    destruct (post_of_child_fields _ _ _ Hp) as [Hid _].
    unfold iteration_events, sleep_events.
    assert (Hr : request_for subreddit comments_limit depth sort post
                 = request_of_entry subreddit comments_limit depth sort c).
    { unfold request_for, request_of_entry. now rewrite Hid. }
    destruct (polite_delay_ms =? 0)%N; simpl;
      unfold count_events in *; simpl; rewrite ?Hc, ?Hs, ?Hall, ?Hreq, ?Hr;
      repeat split.
Qed.

(** ** A listing entry the loop cannot read *)



(** ** A listing body of the wrong type *)

(** X4: when the listing body is JSON but does not hold a list under
    [data.children] (and is not an empty listing either), the run ends right
    after the listing request with an attribute or type error: the failure
    is not turned into an HTTP error, no comment is requested and no file is
    written. *)
Theorem ill_typed_listing_body_raises (E : env) (subreddit : string)
    (posts_limit comments_limit depth : Z) (sort : string) (polite_delay_ms : N)
    (w : world) (posts_json : json) :
  env_listing E subreddit posts_limit = ListingResponse posts_json ->
  listing_abort_status (ListingResponse posts_json) = None ->
  (forall entries, listing_children posts_json <> Ok (JArr entries)) ->
  exists e,
    reddit_hot_comments_to_csv E subreddit posts_limit comments_limit depth sort
      polite_delay_ms w
    = (Raise e, after w [EvListingGet subreddit posts_limit] 0)
    /\ is_type_error e = true.
Proof.
  intros HL Hab Hnl. rewrite run_unfold, collect_results_unfold, HL. cbv zeta.
  simpl in Hab.
  destruct (listing_children posts_json) as [children|e] eqn:Hch.
  - destruct (Py.truthy children) eqn:Ht; [|discriminate].
    destruct children as [| | | |s|l|kvs]; simpl in Ht; try discriminate.
    + exists TypeError. split; reflexivity.
    + exists TypeError. split; reflexivity.
    + exists TypeError. split; reflexivity.
    + destruct s as [|a s]; [discriminate|]. exists AttributeError.
      cbn [Py.iter Py.chars map for_posts]. unfold mbind at 1, M_bind.
      rewrite post_iteration_unfold. split; reflexivity.
    + now destruct (Hnl l).
    + destruct kvs as [|kv kvs]; [discriminate|]. exists AttributeError.
      cbn [Py.iter Py.chars map for_posts]. unfold mbind at 1, M_bind.
      rewrite post_iteration_unfold. split; reflexivity.
  - exists e. split; [reflexivity|].
    unfold listing_children in Hch. unfold_monad.
    destruct (Py.get posts_json "data" (JObj [])) as [d|] eqn:Hd.
    + destruct d; simpl in Hch; try discriminate; now injection Hch as <-.
    + destruct posts_json; simpl in Hd; try discriminate; injection Hd as <-;
        now injection Hch as <-.
Qed.

Lemma ill_typed_listing_body_raises_witness :
  listing_abort_status (env_listing numeric_children_env "x" 5%Z) = None
  /\ exists e,
       Demo.run numeric_children_env 5 250
       = (Raise e, after initial_world [EvListingGet "x" 5%Z] 0)
       /\ is_type_error e = true.
Proof.
  split; [reflexivity|].
  destruct (ill_typed_listing_body_raises numeric_children_env "x" 5 200 2
              "confidence" 250 initial_world _ eq_refl eq_refl) as (e & Hrun & He).
  - intros entries. discriminate.
  - exists e. split; [exact Hrun | exact He].
Defined.

(** ** A comment node the loop cannot read *)

Lemma extract_one_bad (c : json) :
  node_ok c = false -> extract_one c = Raise AttributeError.
Proof.
  destruct c as [| | | | | |kvs]; try reflexivity.
  unfold node_ok, extract_one, is_comment_node, node_data.
  unfold_monad. cbn [Py.get].
  destruct (Py.eq_str (default JNull (Py.lookup_key "kind" kvs)) "t1");
    cbn [negb]; [|discriminate].
  destruct (default (JObj []) (Py.lookup_key "data" kvs)) as [| | | | | |d];
    try reflexivity.
  intros H. apply bool_decide_eq_false in H. destruct H. eauto.
Qed.

Lemma extract_loop_bad (cs : list json) (extracted : list comment) :
  forallb node_ok cs = false -> extract_loop cs extracted = Raise AttributeError.
Proof.
  revert extracted. induction cs as [|c cs IH]; intros extracted; simpl;
    [discriminate|].
  destruct (node_ok c) eqn:Hc; simpl.
  - intros Hcs. rewrite (extract_one_ok c Hc). unfold mbind, result_bind.
    destruct (is_comment_node c); simpl; apply (IH _ Hcs).
  - intros _. now rewrite (extract_one_bad c Hc).
Qed.

(** X5: one node that cannot be read (a node that is not an object, or a
    comment node whose [data] is neither missing nor an object) anywhere in
    the forest makes the iteration raise [AttributeError] right after the
    comment request: nothing is appended for the post, the comments read
    before the bad node are dropped, and the pause is skipped. *)
Theorem unreadable_node_aborts_iteration (E : env) (subreddit : string)
    (comments_limit depth : Z) (sort : string) (polite_delay_ms : N)
    (idx : nat) (child : json) (results : list item) (w : world)
    (post : post_info) (comments_json : json) (children : list json) :
  post_of_child idx child = Ok post ->
  env_comments E (fetches w) (request_for subreddit comments_limit depth sort post)
    = CommentsJson comments_json ->
  forest_of comments_json = Some children ->
  forallb node_ok children = false ->
  extract_comments comments_json = Raise AttributeError
  /\ post_iteration E subreddit comments_limit depth sort polite_delay_ms idx child
       results w
     = (Raise AttributeError,
        after w [EvCommentGet (request_for subreddit comments_limit depth sort post)]
          1).
Proof.
  intros Hp Hrc Hf Hbad.
  assert (He : extract_comments comments_json = Raise AttributeError).
  { destruct comments_json as [| | | | |[|a [|b l]]|]; try discriminate.
    destruct b as [| | | | | |kvs]; try discriminate.
    unfold extract_comments, comments_children. simpl in *. unfold_monad.
    destruct (default (JObj []) (Py.lookup_key "data" kvs)) as [| | | | | |d];
      try discriminate. simpl.
    destruct (default (JArr []) (Py.lookup_key "children" d)) as [| | | | |cs|];
      try discriminate. injection Hf as ->. simpl.
    apply (extract_loop_bad children [] Hbad). }
  split; [exact He|].
  rewrite post_iteration_unfold, Hp, Hrc. simpl.
  replace (unexpected_shape comments_json) with false.
  - now rewrite He.
  - destruct comments_json as [| | | | |[|a [|b l]]|]; try discriminate. reflexivity.
Qed.

Lemma unreadable_node_aborts_iteration_witness :
  forest_of null_data_answer
    = Some [JObj [("kind", JStr "t1"); ("data", JNull)]]
  /\ post_iteration null_data_env "x" 200 2 "confidence" 250 1 Demo.post_a []
       initial_world
     = (Raise AttributeError,
        after initial_world
          [EvCommentGet {| req_subreddit := "x"; req_post_id := JStr "a";
                           req_limit := 200; req_depth := 2;
                           req_sort := "confidence" |}] 1).
Proof.
  split; [reflexivity|].
  apply (unreadable_node_aborts_iteration null_data_env "x" 200 2 "confidence" 250 1
           Demo.post_a [] initial_world _ null_data_answer
           [JObj [("kind", JStr "t1"); ("data", JNull)]] eq_refl eq_refl eq_refl
           eq_refl).
Defined.

(** ** Effects of a completed run *)




(** ** The summary and the file *)



(** ** Keys of the recorded items *)

(** X8: every item in the results of a run has the [post] and [comments]
    keys, so the defaults of the writer are never used.  An item without
    [error] and with the first-batch note carries [comments_count_returned],
    equal to the number of its comments; an item with [error] has the message
    prefixed by the fixed text, no note, no count and no comments; an item
    with the unexpected-answer note has no error, no count and no comments. *)
Theorem recorded_items_have_their_keys (E : env) (subreddit : string)
    (posts_limit comments_limit depth : Z) (sort : string) (polite_delay_ms : N)
    (w w' : world) (results : list item) :
  collect_results E subreddit posts_limit comments_limit depth sort polite_delay_ms w
    = (Ok results, w') ->
  forall it, In it results ->
    exists post cs,
      item_post it = Some post
      /\ item_comments it = Some cs
      /\ match status_of it with
         | StatusOk =>
             item_error it = None
             /\ item_note it = Some first_batch_note
             /\ item_comments_count_returned it = Some (length cs)
         | FetchError message =>
             (exists err, message = "Erro ao buscar comentários: " +:+ err)
             /\ item_note it = None
             /\ item_comments_count_returned it = None
             /\ cs = []
         | UnexpectedShape =>
             item_error it = None
             /\ item_comments_count_returned it = None
             /\ cs = []
         end.
Proof.
  intros Hc it Hin. apply collect_results_ok_iff in Hc.
  destruct Hc as (pj & entries & _ & _ & _ & Hm & _).
  destruct (items_match_In _ _ _ _ _ _ _ _ _ _ Hm Hin)
    as (k & child & _ & _ & post & _ & Hn).
  apply new_item_cases in Hn.
  destruct Hn as [(why & err & _ & ->)|[(cj & _ & _ & ->)|(cj & ex & _ & _ & _ & ->)]].
  - exists post, []. simpl. repeat split. now exists err.
  - exists post, []. repeat split.
  - exists post, ex. repeat split.
Qed.

Lemma recorded_items_have_their_keys_witness :
  exists results w',
    Demo.results_of Demo.world_env 5 250 = (Ok results, w')
    /\ map item_comments_count_returned results = [Some 2; None; None]
    /\ forall it, In it results ->
         exists post cs, item_post it = Some post /\ item_comments it = Some cs.
Proof.
  destruct (Demo.results_of Demo.world_env 5 250) as [r w'] eqn:Hr.
  pose proof Hr as Hrun. vm_compute in Hr. injection Hr as <- <-.
  eexists. eexists. split; [reflexivity|]. split; [reflexivity|].
  intros it Hin.
  destruct (recorded_items_have_their_keys _ _ _ _ _ _ _ _ _ _ Hrun it Hin)
    as (post & cs & Hp & Hcs & _).
  exists post, cs. split; [exact Hp | exact Hcs].
Defined.

(** ** Ranks along the rows *)

Lemma constant_sorted (x : Z) (l : list Z) :
  Forall (eq x) l -> StronglySorted Z.le l.
Proof.
  induction 1 as [|y l Hy Hl IH]; constructor; [exact IH|].
  subst y. eapply Forall_impl; [exact Hl|]. intros z <-. simpl. lia.
Qed.

Lemma rows_ranked (E : env) (subreddit : string) (comments_limit depth : Z)
    (sort : string) (children : list json) (n idx : nat) (new : list item) :
  items_match E subreddit comments_limit depth sort n idx children new ->
  Forall (fun r =>
            row_subreddit r = subreddit
            /\ exists k, row_post_index_in_hot r = JInt (Z.of_nat k)
                         /\ idx <= k < idx + length children)
    (csv_rows subreddit new)
  /\ StronglySorted Z.le (map row_rank (csv_rows subreddit new)).
Proof.
  revert n idx new. induction children as [|c cs IH]; intros n idx [|it its]; simpl;
    try tauto.
  - intros _. split; constructor.
  - intros [(post & Hp & Hn) Hm]. destruct (IH _ _ _ Hm) as [Hall Hsorted].
    rewrite (new_item_post _ _ _ Hn). apply post_of_child_index in Hp.
    assert (Hhead : Forall (fun r =>
              row_subreddit r = subreddit
              /\ row_post_index_in_hot r = JInt (Z.of_nat idx))
              (map (row_of subreddit (Some post)) (default [] (item_comments it)))).
    { apply Forall_forall. intros r Hr. apply list_elem_of_In, in_map_iff in Hr.
      destruct Hr as (cm & <- & _). simpl. now rewrite Hp. }
    split.
    + apply Forall_app. split.
      * eapply Forall_impl; [exact Hhead|]. intros r [Hs Hi].
        split; [exact Hs|]. exists idx. split; [exact Hi | lia].
      * eapply Forall_impl; [exact Hall|]. intros r [Hs (k & Hi & Hk)].
        split; [exact Hs|]. exists k. split; [exact Hi | lia].
    + rewrite map_app. apply StronglySorted_app_2.
      * intros x1 x2 H1 H2.
        apply list_elem_of_In, in_map_iff in H1. destruct H1 as (r1 & <- & H1).
        apply list_elem_of_In, in_map_iff in H2. destruct H2 as (r2 & <- & H2).
        apply list_elem_of_In in H1, H2.
        rewrite Forall_forall in Hhead, Hall.
        destruct (Hhead _ H1) as [_ Hi1]. destruct (Hall _ H2) as [_ (k & Hi2 & Hk)].
        unfold row_rank. rewrite Hi1, Hi2. lia.
      * apply (constant_sorted (Z.of_nat idx)). apply Forall_forall.
        intros x Hx. apply list_elem_of_In, in_map_iff in Hx.
        destruct Hx as (r & <- & Hr). apply list_elem_of_In in Hr.
        rewrite Forall_forall in Hhead. destruct (Hhead _ Hr) as [_ Hi].
        unfold row_rank. now rewrite Hi.
      * exact Hsorted.
Qed.

(** X9: in the file of a completed run every row carries the subreddit of
    the run and, in [post_index_in_hot], a rank between 1 and
    [posts_processed], never a null; along the rows the ranks never
    decrease, so the rows of one post are contiguous and the posts come in
    the order of the listing. *)
Theorem rows_follow_listing_order (E : env) (subreddit : string)
    (posts_limit comments_limit depth : Z) (sort : string) (polite_delay_ms : N)
    (w w' : world) (sm : summary) :
  reddit_hot_comments_to_csv E subreddit posts_limit comments_limit depth sort
    polite_delay_ms w = (Ok sm, w') ->
  exists rows,
    last (trace w') = Some (EvCsvWritten (csv_saved_to sm) fields rows)
    /\ Forall (fun r =>
                 row_subreddit r = subreddit
                 /\ exists k, row_post_index_in_hot r = JInt (Z.of_nat k)
                              /\ 1 <= k <= posts_processed sm) rows
    /\ StronglySorted Z.le (map row_rank rows).
Proof.
  intros Hrun. apply run_ok_iff in Hrun.
  destruct Hrun as (results & w1 & Hc & _ & -> & ->).
  apply collect_results_ok_iff in Hc.
  destruct Hc as (pj & entries & _ & _ & _ & Hm & _).
  pose proof (items_match_length _ _ _ _ _ _ _ _ _ Hm) as Hlen.
  destruct (rows_ranked _ _ _ _ _ _ _ _ _ Hm) as [Hall Hsorted].
  exists (csv_rows subreddit results). simpl.
  split; [apply last_snoc|]. split; [|exact Hsorted].
  eapply Forall_impl; [exact Hall|]. intros r [Hs (k & Hi & Hk)].
  split; [exact Hs|]. exists k. split; [exact Hi | lia].
Qed.

Lemma rows_follow_listing_order_witness :
  exists sm w' rows,
    Demo.run Demo.world_env 5 250 = (Ok sm, w')
    /\ last (trace w') = Some (EvCsvWritten (csv_saved_to sm) fields rows)
    /\ map row_rank rows = [1%Z; 1%Z]
    /\ StronglySorted Z.le (map row_rank rows).
Proof.
  destruct (Demo.run Demo.world_env 5 250) as [r w'] eqn:Hr.
  pose proof Hr as Hrun. vm_compute in Hr. injection Hr as <- <-.
  destruct (rows_follow_listing_order _ _ _ _ _ _ _ _ _ _ Hrun)
    as (rows & Hlast & _ & Hsorted).
  eexists. eexists. exists rows. split; [reflexivity|].
  split; [exact Hlast|]. split; [|exact Hsorted].
  simpl in Hlast. injection Hlast as <-. reflexivity.
Defined.

(** ** File names *)

Lemma append_cons (a : Ascii.ascii) (s t : string) :
  String a s +:+ t = String a (s +:+ t).
Proof. reflexivity. Qed.

Lemma append_length (s t : string) :
  String.length (s +:+ t) = String.length s + String.length t.
Proof.
  induction s as [|a s IH]; [reflexivity|].
  rewrite append_cons. simpl. now rewrite IH.
Qed.

Lemma append_cancel_l (p a b : string) : p +:+ a = p +:+ b -> a = b.
Proof.
  induction p as [|c p IH]; [now intros H|].
  rewrite !append_cons. intros [= H]. auto.
Qed.

Lemma append_split (s1 s2 t1 t2 : string) :
  String.length t1 = String.length t2 ->
  s1 +:+ t1 = s2 +:+ t2 -> s1 = s2 /\ t1 = t2.
Proof.
  intros Hlen. revert s2.
  induction s1 as [|a s1 IH]; intros [|b s2] H.
  - split; [reflexivity | exact H].
  - apply (f_equal String.length) in H. rewrite !append_length in H.
    simpl in H. lia.
  - apply (f_equal String.length) in H. rewrite !append_length in H.
    simpl in H. lia.
  - rewrite !append_cons in H. injection H as -> H.
    destruct (IH _ H) as [-> ->]. split; reflexivity.
Qed.

Lemma digit_inj (a b : nat) : a < 10 -> b < 10 -> digit a = digit b -> a = b.
Proof.
  intros Ha Hb H.
  do 10 (destruct a as [|a];
         [do 10 (destruct b as [|b]; [first [reflexivity | discriminate H]|]); lia|]).
  lia.
Qed.

Lemma pad2_inj (a b : nat) : a < 100 -> b < 100 -> pad2 a = pad2 b -> a = b.
Proof.
  intros Ha Hb. unfold pad2.
  remember (a / 10) as qa eqn:Eqa. remember (a mod 10) as ra eqn:Era.
  remember (b / 10) as qb eqn:Eqb. remember (b mod 10) as rb eqn:Erb.
  intros [= H1 H0].
  apply digit_inj in H1; [|lia..]. apply digit_inj in H0; [|lia..]. lia.
Qed.

Lemma pad4_inj (a b : nat) :
  a < 10 * 1000 -> b < 10 * 1000 -> pad4 a = pad4 b -> a = b.
Proof.
  intros Ha Hb. unfold pad4.
  remember (a / 1000) as a3 eqn:Ea3. remember (a / 100 mod 10) as a2 eqn:Ea2.
  remember (a / 10 mod 10) as a1 eqn:Ea1. remember (a mod 10) as a0 eqn:Ea0.
  remember (b / 1000) as b3 eqn:Eb3. remember (b / 100 mod 10) as b2 eqn:Eb2.
  remember (b / 10 mod 10) as b1 eqn:Eb1. remember (b mod 10) as b0 eqn:Eb0.
  intros [= H3 H2 H1 H0].
  apply digit_inj in H3; [|lia..]. apply digit_inj in H2; [|lia..].
  apply digit_inj in H1; [|lia..]. apply digit_inj in H0; [|lia..]. lia.
Qed.

Lemma timestamp_length (now : datetime) : String.length (_timestamp now) = 19.
Proof. reflexivity. Qed.

Lemma timestamp_inj (now1 now2 : datetime) :
  valid_datetime now1 -> valid_datetime now2 ->
  _timestamp now1 = _timestamp now2 -> now1 = now2.
Proof.
  destruct now1 as [y1 m1 d1 h1 mi1 s1], now2 as [y2 m2 d2 h2 mi2 s2].
  unfold valid_datetime. simpl.
  intros (Hy1 & Hm1 & Hd1 & Hh1 & Hmi1 & Hs1) (Hy2 & Hm2 & Hd2 & Hh2 & Hmi2 & Hs2).
  unfold _timestamp. simpl dt_year. simpl dt_month. simpl dt_day. simpl dt_hour.
  simpl dt_minute. simpl dt_second.
  intros H.
  apply append_split in H; [|reflexivity]. destruct H as [Hy H].
  apply append_cancel_l, append_split in H; [|reflexivity]. destruct H as [Hm H].
  apply append_cancel_l, append_split in H; [|reflexivity]. destruct H as [Hd H].
  apply append_cancel_l, append_split in H; [|reflexivity]. destruct H as [Hh H].
  apply append_cancel_l, append_split in H; [|reflexivity]. destruct H as [Hmi H].
  apply append_cancel_l in H. rename H into Hs.
  apply pad4_inj in Hy; [|lia..].
  apply pad2_inj in Hm, Hd, Hh, Hmi, Hs; try lia.
  now subst.
Qed.

(** X10: two writes give the same file name exactly when they are for the
    same subreddit and happen within the same second of the clock: the name
    is [data/reddit_<subreddit>_comments_<timestamp>.csv] and the timestamp,
    [%Y-%m-%d_%H-%M-%S], has nineteen characters and determines the date and
    time to the second.  A second run for the same subreddit within the same
    second therefore writes to the file of the first. *)
Theorem file_names_collide_only_within_a_second (E1 E2 : env)
    (now1 now2 : datetime) (subreddit1 subreddit2 : string)
    (results1 results2 : list item) (w1 w2 : world) :
  env_timestamp E1 = _timestamp now1 ->
  env_timestamp E2 = _timestamp now2 ->
  valid_datetime now1 -> valid_datetime now2 ->
  env_write_error E1 = None -> env_write_error E2 = None ->
  exists path1 path2 w1' w2',
    save_comments_csv E1 subreddit1 results1 w1 = (Ok path1, w1')
    /\ save_comments_csv E2 subreddit2 results2 w2 = (Ok path2, w2')
    /\ (path1 = path2 <-> subreddit1 = subreddit2 /\ now1 = now2).
Proof.
  intros Ht1 Ht2 Hv1 Hv2 Hw1 Hw2.
  rewrite !save_comments_csv_run, Hw1, Hw2. do 4 eexists.
  split; [reflexivity|]. split; [reflexivity|].
  unfold csv_name. rewrite Ht1, Ht2. split.
  - intros H. apply append_cancel_l in H. apply append_split in H.
    + destruct H as [-> H]. split; [reflexivity|].
      apply append_cancel_l in H. apply append_split in H; [|reflexivity].
      destruct H as [H _]. now apply timestamp_inj.
    + rewrite !append_length, !timestamp_length. reflexivity.
  - now intros [-> ->].
Qed.

Lemma file_names_collide_only_within_a_second_witness :
  valid_datetime sample_noon
  /\ _timestamp sample_noon = "2024-05-01_12-00-00"
  /\ exists path1 path2 w1' w2',
       save_comments_csv Demo.world_env "x" [] initial_world = (Ok path1, w1')
       /\ save_comments_csv Demo.unavailable_env "y" [] initial_world = (Ok path2, w2')
       /\ path1 <> path2.
Proof.
  assert (Hv : valid_datetime sample_noon)
    by (unfold valid_datetime, sample_noon; simpl; lia).
  split; [exact Hv|]. split; [reflexivity|].
  destruct (file_names_collide_only_within_a_second Demo.world_env
              Demo.unavailable_env sample_noon sample_noon "x" "y" [] []
              initial_world initial_world eq_refl eq_refl Hv Hv eq_refl eq_refl)
    as (p1 & p2 & w1' & w2' & H1 & H2 & Hiff).
  exists p1, p2, w1', w2'. split; [exact H1|]. split; [exact H2|].
  intros Heq. apply Hiff in Heq. destruct Heq as [Heq _]. discriminate.
Defined.

(** ** Only the top level of the forest is read *)

(** X11: whenever the extraction succeeds on an answer whose forest is a
    list, the comments are exactly the top-level nodes of kind [t1], in
    order, each read from its own [data]: there are at most as many comments
    as top-level nodes, and nothing nested under a node (its replies,
    whatever depth was requested) adds a comment. *)
Theorem extraction_reads_top_level_only (comments_json : json)
    (children : list json) (cs : list comment) :
  forest_of comments_json = Some children ->
  extract_comments comments_json = Ok cs ->
  cs = map comment_of_node (List.filter is_comment_node children)
  /\ length cs = length (List.filter is_comment_node children)
  /\ length cs <= length children
  /\ forallb node_ok children = true.
Proof.
  intros Hf He.
  assert (Hloop : extract_comments comments_json = extract_loop children []).
  { destruct comments_json as [| | | | |[|a [|b l]]|]; try discriminate.
    destruct b as [| | | | | |kvs]; try discriminate.
    unfold extract_comments, comments_children. simpl in *. unfold_monad.
    destruct (default (JObj []) (Py.lookup_key "data" kvs)) as [| | | | | |d];
      try discriminate. simpl.
    destruct (default (JArr []) (Py.lookup_key "children" d)) as [| | | | |l'|];
      try discriminate. now injection Hf as ->. }
  rewrite Hloop in He.
  destruct (forallb node_ok children) eqn:Hok.
  - rewrite (extract_loop_ok children [] Hok) in He. injection He as <-. simpl.
    repeat split.
    + now rewrite length_map.
    + rewrite length_map. apply List.filter_length_le.
  - rewrite (extract_loop_bad children [] Hok) in He. discriminate.
Qed.

Lemma extraction_reads_top_level_only_witness :
  forest_of Demo.comments = Some Demo.forest
  /\ exists cs,
       extract_comments Demo.comments = Ok cs
       /\ length cs = 2 /\ length Demo.forest = 3.
Proof.
  split; [reflexivity|]. eexists. split; [reflexivity|].
  destruct (extraction_reads_top_level_only Demo.comments Demo.forest _
              eq_refl eq_refl) as (_ & Hlen & _).
  split; [exact Hlen | reflexivity].
Defined.

(** ** Answers without a forest *)

(** X12: an answer of two elements or more whose second element is an
    object without [data], or whose [data] is an object without [children],
    is not an unexpected shape: the post gets an item with status ok, no
    comments and a count of 0. *)
Theorem missing_forest_is_an_empty_ok_item (post : post_info) (first : json)
    (kvs : list (string * json)) (more : list json) :
  Py.lookup_key "data" kvs = None
  \/ (exists d, Py.lookup_key "data" kvs = Some (JObj d)
                /\ Py.lookup_key "children" d = None) ->
  let answer := JArr (first :: JObj kvs :: more) in
  new_item post (CommentsJson answer) = Ok (ok_item post [])
  /\ status_of (ok_item post []) = StatusOk
  /\ item_comments_count_returned (ok_item post []) = Some 0
  /\ forall subreddit, csv_rows subreddit [ok_item post []] = [].
Proof.
  intros H answer. repeat split.
  unfold answer, new_item, extract_comments, comments_children. simpl.
  unfold_monad. simpl.
  destruct H as [Hd|(d & Hd & Hc)]; rewrite Hd; simpl; [reflexivity|].
  now rewrite Hc.
Qed.

Lemma missing_forest_is_an_empty_ok_item_witness :
  new_item {| post_id := JStr "a"; post_title := JNull; post_permalink := "";
              post_index_in_hot := 1 |}
    (CommentsJson (JArr [JObj []; JObj [("kind", JStr "Listing")]]))
  = Ok (ok_item {| post_id := JStr "a"; post_title := JNull; post_permalink := "";
                   post_index_in_hot := 1 |} []).
Proof.
  apply (missing_forest_is_an_empty_ok_item _ (JObj []) [("kind", JStr "Listing")] []).
  left. reflexivity.
Defined.

(** ** When every comment request fails *)

(** X13: when the comment request of every post raises, the run still
    completes for a listing of readable entries: it returns a summary with
    one post processed per listing entry and no comment, and writes a file
    with the header and no row. *)
Theorem all_fetches_failing_still_completes (E : env) (subreddit : string)
    (posts_limit comments_limit depth : Z) (sort : string) (polite_delay_ms : N)
    (w : world) (posts_json : json) (entries : list json) :
  env_listing E subreddit posts_limit = ListingResponse posts_json ->
  listing_children posts_json = Ok (JArr entries) ->
  entries <> [] ->
  Forall (fun c => entry_ok c = true) entries ->
  (forall m req, exists why err, env_comments E m req = CommentsRaise why err) ->
  env_write_error E = None ->
  exists sm w',
    reddit_hot_comments_to_csv E subreddit posts_limit comments_limit depth sort
      polite_delay_ms w = (Ok sm, w')
    /\ posts_processed sm = length entries
    /\ comments_total_returned sm = 0
    /\ last (trace w') = Some (EvCsvWritten (csv_saved_to sm) fields []).
Proof.
  intros HL Hch Hne Hok Hfail Hw.
  assert (Hans : forall m req, answer_ok (env_comments E m req) = true).
  { intros m req. destruct (Hfail m req) as (why & err & ->). reflexivity. }
  destruct (items_match_total E subreddit comments_limit depth sort entries
              (fetches w) 1 Hok Hans) as [new Hnew].
  assert (Hempty : Forall (fun it => item_comments it = Some []) new).
  { clear -Hnew Hfail. revert Hnew. generalize (fetches w) 1. revert new.
    induction entries as [|c cs IH]; intros [|it its] n idx; simpl; try tauto.
    - constructor.
    - intros [(post & _ & Hn) Hm]. constructor; [|eauto].
      destruct (Hfail n (request_for subreddit comments_limit depth sort post))
        as (why & err & Hrc).
      rewrite Hrc in Hn. simpl in Hn. now injection Hn as <-. }
  assert (Hrows : csv_rows subreddit new = [] /\ total_comments new = 0).
  { clear -Hempty. unfold total_comments.
    induction Hempty as [|it its Hit _ [IH1 IH2]]; simpl; [auto|].
    rewrite Hit, IH1, IH2. auto. }
  destruct Hrows as [Hrows Htotal].
  do 2 eexists. split.
  - apply run_ok_iff. exists new. eexists.
    split; [|split; [rewrite Hw; reflexivity | eauto]].
    apply collect_results_ok_iff. exists posts_json, entries. eauto 6.
  - simpl. split; [eapply items_match_length, Hnew|]. split; [exact Htotal|].
    rewrite Hrows. apply last_snoc.
Qed.

Lemma all_fetches_failing_still_completes_witness :
  exists sm w',
    Demo.run offline_comments_env 5 250 = (Ok sm, w')
    /\ posts_processed sm = 3
    /\ comments_total_returned sm = 0.
Proof.
  destruct (all_fetches_failing_still_completes offline_comments_env "x" 5 200 2
              "confidence" 250 initial_world Demo.listing
              [Demo.post_a; Demo.post_b; Demo.post_c] eq_refl eq_refl)
    as (sm & w' & Hrun & Hn & Hz & _).
  - discriminate.
  - repeat constructor.
  - intros m req. exists NetworkError, "Connection refused". reflexivity.
  - reflexivity.
  - exists sm, w'. split; [exact Hrun|]. split; [exact Hn | exact Hz].
Defined.

(** ** When the writer fails *)

Lemma rows_before_fault_split (bad : nat -> csv_row -> bool) (rows : list csv_row)
    (k : nat) (written : list csv_row) :
  rows_before_fault bad k rows = Some written ->
  exists r rest,
    rows = written ++ r :: rest
    /\ bad (k + length written) r = true
    /\ forall j r', written !! j = Some r' -> bad (k + j) r' = false.
Proof.
  revert k written. induction rows as [|r rows IH]; intros k written; simpl;
    [discriminate|].
  destruct (bad k r) eqn:Hbad.
  - intros [= <-]. exists r, rows. simpl. rewrite Nat.add_0_r.
    repeat split; [exact Hbad | intros j r'; discriminate].
  - destruct (rows_before_fault bad (S k) rows) as [wr|] eqn:Hrest; [|discriminate].
    intros [= <-]. destruct (IH _ _ Hrest) as (r0 & rest & -> & Hr0 & Hok).
    exists r0, rest. simpl. split; [reflexivity|]. split.
    + now replace (k + S (length wr)) with (S k + length wr) by lia.
    + intros [|j] r'; simpl.
      * intros [= <-]. now rewrite Nat.add_0_r.
      * intros Hj. replace (k + S j) with (S k + j) by lia. eauto.
Qed.

(** X2: when the loop has completed and the writer fails, the run ends with
    the exception of the file operation that failed and returns no summary,
    although the listing request and every comment request have been made.
    If the opening failed, nothing was created.  Otherwise the file was
    created or truncated and stays on disk: empty when the header could not
    be written, else with the header and at most the rows handed to the
    writer before the failure, which are the first rows in order; when a row
    was rejected, it is the row that follows them. *)
Theorem writer_failure_leaves_partial_file (E : env) (subreddit : string)
    (posts_limit comments_limit depth : Z) (sort : string) (polite_delay_ms : N)
    (w w1 : world) (results : list item) (stop : write_stop) :
  collect_results E subreddit posts_limit comments_limit depth sort polite_delay_ms w
    = (Ok results, w1) ->
  write_stop_of (env_write_error E) (csv_rows subreddit results) = Some stop ->
  let run :=
    reddit_hot_comments_to_csv E subreddit posts_limit comments_limit depth sort
      polite_delay_ms w in
  (exists evs,
     w1 = after w (EvListingGet subreddit posts_limit :: evs) (length results)
     /\ forallb is_loop_event evs = true
     /\ count_events is_comment_get evs = length results)
  /\ match stop with
     | StoppedAtOpen x =>
         run = (Raise (exc_of_io x), w1)
         /\ env_write_error E = Some (OpenFails x)
     | StoppedAfterOpen header written x =>
         run = (Raise (exc_of_io x),
                after w1 [EvCsvAbandoned (csv_name E subreddit) header written] 0)
         /\ ((env_write_error E = Some (HeaderFails x)
              /\ header = [] /\ written = [])
             \/ (env_write_error E = Some (CloseFails x)
                 /\ header = fields /\ written = csv_rows subreddit results)
             \/ (exists bad r rest,
                   env_write_error E = Some (RowFails bad x)
                   /\ header = fields
                   /\ csv_rows subreddit results = written ++ r :: rest
                   /\ bad (length written) r = true))
     end
  /\ (forall sm w', run <> (Ok sm, w')).
Proof.
  intros Hc Hstop run.
  assert (Hloop : exists evs,
    w1 = after w (EvListingGet subreddit posts_limit :: evs) (length results)
    /\ forallb is_loop_event evs = true
    /\ count_events is_comment_get evs = length results).
  { pose proof Hc as Hc'. apply collect_results_ok_iff in Hc'.
    destruct Hc' as (pj & entries & _ & _ & _ & Hm & ->).
    pose proof (items_match_length _ _ _ _ _ _ _ _ _ Hm) as Hlen.
    destruct (loop_events_facts _ _ _ _ _ polite_delay_ms _ _ _ _ Hm)
      as (Hcount & _ & Hall & _).
    eexists. rewrite Hlen. split; [reflexivity|]. split; [exact Hall | exact Hcount]. }
  assert (Hrun : run =
    match stop with
    | StoppedAtOpen x => (Raise (exc_of_io x), w1)
    | StoppedAfterOpen header written x =>
        (Raise (exc_of_io x),
         after w1 [EvCsvAbandoned (csv_name E subreddit) header written] 0)
    end).
  { unfold run. now rewrite run_unfold, Hc, Hstop. }
  split; [exact Hloop|]. split.
  - unfold write_stop_of in Hstop.
    destruct (env_write_error E) as [[x|x|bad x|x]|]; try discriminate.
    + injection Hstop as <-. auto.
    + injection Hstop as <-. split; [exact Hrun|]. left. auto.
    + destruct (rows_before_fault bad 0 (csv_rows subreddit results))
        as [written|] eqn:Hrows; [|discriminate].
      injection Hstop as <-. split; [exact Hrun|]. right; right.
      destruct (rows_before_fault_split _ _ _ _ Hrows) as (r & rest & Hsplit & Hbad & _).
      exists bad, r, rest. auto.
    + injection Hstop as <-. split; [exact Hrun|]. right; left. auto.
  - intros sm w'. rewrite Hrun. destruct stop; discriminate.
Qed.

Lemma writer_failure_leaves_partial_file_witness :
  exists results w1 written,
    Demo.results_of unencodable_comment_env 5 250 = (Ok results, w1)
    /\ length (csv_rows "x" results) = 2
    /\ map row_comment_id written = [JStr "c1"]
    /\ Demo.run unencodable_comment_env 5 250
       = (Raise (UnicodeEncodeError
                   "'utf-8' codec can't encode character: surrogates not allowed"),
          after w1 [EvCsvAbandoned "data/reddit_x_comments_2024-05-01_12-00-00.csv"
                      fields written] 0).
Proof.
  destruct (Demo.results_of unencodable_comment_env 5 250) as [r w1] eqn:Hr.
  pose proof Hr as Hc. vm_compute in Hr. injection Hr as <- <-.
  set (row1 := row_of "x"
                 (Some {| post_id := JStr "a"; post_title := JStr "First";
                          post_permalink := "https://www.reddit.com/r/x/comments/a/";
                          post_index_in_hot := 1 |})
                 {| c_id := JStr "c1"; c_author := JNull; c_body := JStr "hello";
                    c_score := JInt 7; c_created_utc := JNull; c_parent_id := JNull;
                    c_is_submitter := JNull |}).
  eexists. eexists. exists [row1].
  split; [reflexivity|]. split; [reflexivity|]. split; [reflexivity|].
  match type of Hc with
  | _ = (Ok ?res, _) =>
      destruct (writer_failure_leaves_partial_file unencodable_comment_env "x" 5 200 2
                  "confidence" 250 initial_world _ res
                  (StoppedAfterOpen fields [row1]
                     (IoUnicodeEncodeError
                        "'utf-8' codec can't encode character: surrogates not allowed"))
                  Hc eq_refl) as (_ & [Hrun _] & _)
  end.
  exact Hrun.
Defined.

(** ** Runs that end with an exception *)


